(** * go-hdf5: the Attribute and Dataset marshalling layer

    A shallow embedding of [h5a.go] and [h5d.go], and of the second variant
    of [Attribute.Read] found next to them (its [Attribute.Write] differs
    from the one of [h5a.go] in the text of one message only), together
    with the properties of the transfer engine.

    The Go code drives the HDF5 C library through cgo and inspects its
    arguments with [reflect].  The embedding keeps three things explicit:

    - the Go memory the marshaller may touch (a heap of typed cells; slice
      headers are separate from the storage they point to);
    - the C library, taken as a parameter (record [Hdf5]): every theorem of
      the general part holds whatever the library answers;
    - a log of the library calls made by the modelled code, which is what
      "no transfer is invoked" or "the handle is closed" talk about.

    The pointer check that the Go runtime makes before a call into C is
    part of the model where the code hands C the address of a header or of
    a pointer variable: the local strings of [Attribute.Read] and
    [Attribute.Write], and the address [Dataset.WriteSubset] resolves.

    Go types are the unnamed ones ([int], [[3]float64], [*[]int8], ...);
    [int] has 64 bits; a chain of pointers is followed with fuel, one unit
    per recursive call; finalizers, which run at a time the collector
    chooses, are left out. *)

From Stdlib Require Import ZArith List Bool Lia.
From Stdlib.Strings Require Import Byte.
From Stdlib.Strings Require String.
Import ListNotations.
Local Open Scope Z_scope.

(** ** reflect.Kind and the Go types the marshaller distinguishes *)

Module reflect.

Inductive Kind : Set :=
| Invalid | Bool | Int | Int8 | Int16 | Int32 | Int64
| Uint | Uint8 | Uint16 | Uint32 | Uint64 | Uintptr
| Float32 | Float64 | Complex64 | Complex128
| Array | Chan | Func | Interface | Map | Ptr | Slice | String | Struct
| UnsafePointer.

End reflect.

(** Kinds that fall into the [default:] branch of the switches: everything
    that is not an array, a slice, a string or a pointer. *)
Inductive Basic : Set :=
| BBool | BInt | BInt8 | BInt16 | BInt32 | BInt64
| BUint | BUint8 | BUint16 | BUint32 | BUint64 | BUintptr
| BFloat32 | BFloat64 | BComplex64 | BComplex128
| BChan | BFunc | BInterface | BMap | BStruct | BUnsafePointer.

Inductive GoType : Set :=
| TBasic (b : Basic)
| TString
| TArray (n : nat) (elem : GoType)
| TSlice (elem : GoType)
| TPtr (elem : GoType).

Definition basic_kind (b : Basic) : reflect.Kind :=
  match b with
  | BBool => reflect.Bool | BInt => reflect.Int | BInt8 => reflect.Int8
  | BInt16 => reflect.Int16 | BInt32 => reflect.Int32 | BInt64 => reflect.Int64
  | BUint => reflect.Uint | BUint8 => reflect.Uint8 | BUint16 => reflect.Uint16
  | BUint32 => reflect.Uint32 | BUint64 => reflect.Uint64
  | BUintptr => reflect.Uintptr
  | BFloat32 => reflect.Float32 | BFloat64 => reflect.Float64
  | BComplex64 => reflect.Complex64 | BComplex128 => reflect.Complex128
  | BChan => reflect.Chan | BFunc => reflect.Func
  | BInterface => reflect.Interface | BMap => reflect.Map
  | BStruct => reflect.Struct | BUnsafePointer => reflect.UnsafePointer
  end.

(** [reflect.Type.Kind] *)
Definition kind_of (t : GoType) : reflect.Kind :=
  match t with
  | TBasic b => basic_kind b
  | TString => reflect.String
  | TArray _ _ => reflect.Array
  | TSlice _ => reflect.Slice
  | TPtr _ => reflect.Ptr
  end.

Definition Basic_eq_dec (a b : Basic) : {a = b} + {a <> b}.
Proof. decide equality. Defined.

Definition Kind_eq_dec (a b : reflect.Kind) : {a = b} + {a <> b}.
Proof. decide equality. Defined.

(** Comparison of two [reflect.Type] values with [==] / [!=]. *)
Definition GoType_eq_dec (a b : GoType) : {a = b} + {a <> b}.
Proof. decide equality; [apply Basic_eq_dec | apply Nat.eq_dec]. Defined.

(** ** Go memory *)

Definition loc := nat.

(** A [uintptr] as the code obtains it: 0, the address of an addressable
    variable ([UnsafeAddr], or the [Data] word of a slice, which points at
    the storage cell), or the [Data] word of the string stored in a
    variable. *)
Inductive uintptr : Set :=
| Null
| AddrOf (l : loc)
| StringData (l : loc).

(** reflect.SliceHeader *)
Record SliceHeader : Set := mkSliceHeader {
  Data : uintptr;
  Len : Z;
  Cap : Z
}.

(** Where the bytes of a string lie.  A string built at run time has them
    in memory that Go allocated.  A literal has them in the read-only data
    of the program, the zero value has none, and bytes that the C library
    allocated are not Go's either: these are [Outside]. *)
Inductive Origin : Set :=
| InGoMemory
| Outside.

(** One addressable Go variable.  Scalars and arrays are kept as the raw
    bytes the C library reads and writes; a string variable holds its
    bytes and where they lie; a slice variable holds its header only; a
    pointer variable holds nil or the variable it points to. *)
Inductive Cell : Set :=
| CScalar (b : Basic) (raw : list byte)
| CString (o : Origin) (str : list byte)
| CArray (elem : GoType) (len : nat) (raw : list byte)
| CSlice (elem : GoType) (hdr : SliceHeader)
| CPtr (elem : GoType) (p : option loc).

Definition Heap := list Cell.

(** [v.Elem().Type()] of a pointer to the cell *)
Definition cell_type (c : Cell) : GoType :=
  match c with
  | CScalar b _ => TBasic b
  | CString _ _ => TString
  | CArray e n _ => TArray n e
  | CSlice e _ => TSlice e
  | CPtr e _ => TPtr e
  end.

Fixpoint heap_set (h : Heap) (l : loc) (c : Cell) : Heap :=
  match h, l with
  | [], _ => []
  | _ :: h', O => c :: h'
  | x :: h', S l' => x :: heap_set h' l' c
  end.

(** What [interface{}] arguments the entry points can receive. *)
Inductive Value : Set :=
| VNilInterface                 (* the nil interface: reflect.ValueOf gives the zero Value *)
| VVal (t : GoType)             (* a value of type t that is not a non-nil pointer *)
| VPtr (l : loc).               (* a non-nil pointer to the variable l *)

(** [reflect.ValueOf(data).Kind()] *)
Definition Value_Kind (v : Value) : reflect.Kind :=
  match v with
  | VNilInterface => reflect.Invalid
  | VVal t => kind_of t
  | VPtr _ => reflect.Ptr
  end.

(** ** The pointer check of cgo

    Before a call into C the Go runtime inspects the pointer arguments
    ([cgoCheckPointer], which is on by default): when an argument points
    into Go memory and the memory it points to holds a pointer into Go
    memory, the call is not made and the program panics ("cgo argument has
    Go pointer to unpinned Go pointer").  Scalars, arrays and the storage of a slice
    or of a string are kept as raw bytes and taken to hold no pointer; the
    header of a string or of a slice and a pointer variable hold one when
    what they refer to lies in Go memory. *)
Definition holds_go_pointer (h : Heap) (a : uintptr) : bool :=
  match a with
  | AddrOf l =>
      match nth_error h l with
      | Some (CPtr _ (Some _)) => true
      | Some (CSlice _ hdr) =>
          match Data hdr with
          | Null => false
          | _ => true
          end
      | Some (CString InGoMemory _) => true
      | _ => false
      end
  | _ => false
  end.

(** ** Bytes seen by a raw transfer

    The C library receives a bare address.  The model hands it the bytes
    stored there and writes its answer back in place; storage never grows
    or shrinks under a raw transfer, and a header (slice, string or pointer
    variable) is not reachable through the address of the data it
    describes. *)

Definition load (h : Heap) (a : uintptr) : list byte :=
  match a with
  | Null => []
  | AddrOf l =>
      match nth_error h l with
      | Some (CScalar _ raw) => raw
      | Some (CArray _ _ raw) => raw
      | _ => []
      end
  | StringData l =>
      match nth_error h l with
      | Some (CString _ str) => str
      | _ => []
      end
  end.

(** [overwrite old new]: [new] copied over the beginning of [old]. *)
Definition overwrite (old new : list byte) : list byte :=
  firstn (length old) (new ++ skipn (length new) old).

Definition store (h : Heap) (a : uintptr) (bs : list byte) : Heap :=
  match a with
  | Null => h
  | AddrOf l =>
      match nth_error h l with
      | Some (CScalar b raw) => heap_set h l (CScalar b (overwrite raw bs))
      | Some (CArray e n raw) => heap_set h l (CArray e n (overwrite raw bs))
      | _ => h
      end
  | StringData l =>
      match nth_error h l with
      | Some (CString o str) => heap_set h l (CString o (overwrite str bs))
      | _ => h
      end
  end.

(** ** Identifiers, errors *)

Definition hid_t := Z.
Definition herr_t := Z.

(** [Identifier]: the struct behind Attribute, Dataset, Datatype and
    Dataspace; only its [id] field is used here. *)
Record Identifier : Set := mkIdentifier { id : hid_t }.

Definition Attribute := Identifier.
Definition Dataset := Identifier.
Definition Datatype := Identifier.
Definition Dataspace := Identifier.

(** The errors the code builds; one constructor per [fmt.Errorf] site, with
    the values it formats. *)
Inductive error : Set :=
| ErrReadNonPointer (k : reflect.Kind)
    (* "Attribute: Read(non-pointer %v )", v.Kind() *)
| ErrWriteNonPointer (t : GoType)
    (* "Attribute: Read(non-pointer %v )", v.Type()   [in Write] *)
| ErrCantStore (disk : GoType) (dest : GoType)
    (* "Attribute type %v can't be stored in %v" *)
| ErrDatatype (e : error)
    (* "Datatype error: %v" *)
| ErrOpenDatatype (name : String.string)
    (* "couldn't open Datatype from Dataset %q" *)
| ErrH5 (code : Z)
    (* what h5err makes of a failing status *)
| ErrUnsupported (t : GoType).
    (* a failure reported by NewDataTypeFromType *)

(** Run-time panics. *)
Inductive PanicReason : Set :=
| NilDereference        (* field access or method call through a nil pointer *)
| DivideByZero          (* integer divide by zero *)
| ReflectZeroValue      (* reflect: call of Value.Type / UnsafeAddr on zero Value *)
| ReflectUnaddressable  (* reflect.Value.UnsafeAddr of unaddressable value *)
| ReflectOutOfRange     (* SetLen / Slice with an index out of range *)
| InvalidMemory         (* a pointer to no variable of the model *)
| CgoPointer.           (* cgo argument has Go pointer to unpinned Go pointer *)

(** ** The C library and the helpers of the package defined in other files *)

Record Hdf5 : Type := mkHdf5 {
  LibState : Type;
  (* hdf5.h *)
  H5Aget_type : hid_t -> LibState -> hid_t * LibState;
  H5Aclose : hid_t -> LibState -> herr_t * LibState;
  H5Aget_storage_size : hid_t -> LibState -> Z;
  H5Aread : hid_t -> hid_t -> list byte -> LibState ->
            herr_t * list byte * LibState;
  H5Awrite : hid_t -> hid_t -> list byte -> LibState -> herr_t * LibState;
  H5Dget_type : hid_t -> LibState -> hid_t * LibState;
  H5Dclose : hid_t -> LibState -> herr_t * LibState;
  H5Dread : hid_t -> hid_t -> hid_t -> hid_t -> hid_t -> list byte ->
            LibState -> herr_t * list byte * LibState;
  H5Dwrite : hid_t -> hid_t -> hid_t -> hid_t -> hid_t -> list byte ->
             LibState -> herr_t * LibState;
  H5Tclose : hid_t -> LibState -> herr_t * LibState;
  (* package hdf5, outside h5a.go and h5d.go *)
  h5err : herr_t -> option error;
  NewDataTypeFromType : GoType -> LibState ->
                        option Datatype * option error * LibState;
  Datatype_GoType : Datatype -> LibState -> GoType;
  Datatype_Size : Datatype -> LibState -> Z;
  Identifier_Name : Identifier -> LibState -> String.string;
  (* unsafe.Sizeof on the platform *)
  Sizeof : GoType -> nat
}.

(** ** Library calls made by the modelled code *)

(** Where a raw transfer was pointed. *)
Inductive Target : Set :=
| AtAddr (a : uintptr)     (* unsafe.Pointer(addr) *)
| AtLocal.                 (* unsafe.Pointer(&buf), a local string variable *)

Inductive Call : Set :=
| Call_H5Aget_type (attr : hid_t)
| Call_H5Aclose (attr : hid_t)
| Call_H5Aread (attr typ : hid_t) (tgt : Target) (buf : list byte)
| Call_H5Awrite (attr typ : hid_t) (tgt : Target) (buf : list byte)
| Call_H5Dget_type (dset : hid_t)
| Call_H5Dclose (dset : hid_t)
| Call_H5Dread (dset typ mem file : hid_t) (tgt : Target) (buf : list byte)
| Call_H5Dwrite (dset typ mem file : hid_t) (tgt : Target) (buf : list byte)
| Call_H5Tclose (typ : hid_t).

(** The raw transfers among the calls. *)
Definition is_transfer (c : Call) : bool :=
  match c with
  | Call_H5Aread _ _ _ _ | Call_H5Awrite _ _ _ _
  | Call_H5Dread _ _ _ _ _ _ | Call_H5Dwrite _ _ _ _ _ _ => true
  | _ => false
  end.

Definition transfers (cs : list Call) : list Call := filter is_transfer cs.

(** ** Integer conversions *)

(** [int(x)] for an unsigned 64-bit [x]: two's complement wrap-around. *)
Definition to_int (z : Z) : Z := (z + 2^63) mod 2^64 - 2^63.

(** [strings.Trim(s, "\x00")] *)
Fixpoint TrimLeft (s : list byte) : list byte :=
  match s with
  | x00 :: s' => TrimLeft s'
  | _ => s
  end.

Definition TrimRight (s : list byte) : list byte := rev (TrimLeft (rev s)).

Definition Trim (s : list byte) : list byte := TrimRight (TrimLeft s).

(** [strings.Repeat("\x00", n)] for [n > 0]: one copy is the argument
    itself, a literal; more copies are built in a new string. *)
Definition Repeat_NUL (n : Z) : Origin * list byte :=
  (if n =? 1 then Outside else InGoMemory, repeat x00 (Z.to_nat n)).

(** The address each branch of the switches resolves for the variable [c]
    at [l]: [ReadSubset] and [WriteSubset] agree except on a pointer
    variable, which [ReadSubset] follows and [WriteSubset] passes on. *)
Definition read_address (l : loc) (c : Cell) : uintptr :=
  match c with
  | CArray _ _ _ => AddrOf l
  | CSlice _ hdr => Data hdr
  | CString _ _ => StringData l
  | CPtr _ _ => Null
  | CScalar _ _ => AddrOf l
  end.

Definition write_address (l : loc) (c : Cell) : uintptr :=
  match c with
  | CPtr _ (Some l') => AddrOf l'
  | _ => read_address l c
  end.

(** * The marshalling code *)

Section Marshal.

Variable E : Hdf5.

(** Everything a call can change: Go memory, the state of the C library,
    and the log of the library calls made so far (oldest first). *)
Record World : Type := mkWorld {
  heap : Heap;
  lib : LibState E;
  calls : list Call
}.

(** How a Go call ends: [Returns] covers the normal return (an error value
    is part of the result), [Panics] a run-time panic.  [OutOfFuel] is the
    model giving up on a chain of pointers longer than its fuel. *)
Inductive Outcome (A : Type) : Type :=
| Returns (a : A) (w : World)
| Panics (p : PanicReason) (w : World)
| OutOfFuel.

Arguments Returns {A} a w.
Arguments Panics {A} p w.
Arguments OutOfFuel {A}.

Definition M (A : Type) : Type := World -> Outcome A.

Definition ret {A} (a : A) : M A := fun w => Returns a w.

Definition bind {A B} (m : M A) (k : A -> M B) : M B :=
  fun w =>
    match m w with
    | Returns a w' => k a w'
    | Panics p w' => Panics p w'
    | OutOfFuel => OutOfFuel
    end.

Definition panic {A} (p : PanicReason) : M A := fun w => Panics p w.

Definition out_of_fuel {A} : M A := fun _ => OutOfFuel.

Notation "x <- m ;; k" := (bind m (fun x => k))
  (at level 61, m at next level, right associativity).
Notation "m ;;; k" := (bind m (fun _ => k))
  (at level 61, right associativity).

(** [defer d; body]: [d] runs when [body] is left, by return or by panic;
    what [d] returns is dropped, a panic of [d] replaces the outcome. *)
Definition defer {A B} (d : M B) (body : M A) : M A :=
  fun w =>
    match body w with
    | Returns a w' =>
        match d w' with
        | Returns _ w'' => Returns a w''
        | Panics p w'' => Panics p w''
        | OutOfFuel => OutOfFuel
        end
    | Panics p w' =>
        match d w' with
        | Returns _ w'' => Panics p w''
        | Panics p' w'' => Panics p' w''
        | OutOfFuel => OutOfFuel
        end
    | OutOfFuel => OutOfFuel
    end.

(** *** Memory access *)

Definition deref (l : loc) : M Cell :=
  fun w =>
    match nth_error (heap w) l with
    | Some c => Returns c w
    | None => Panics InvalidMemory w
    end.

Definition assign (l : loc) (c : Cell) : M unit :=
  fun w => Returns tt (mkWorld (heap_set (heap w) l c) (lib w) (calls w)).

(** [reflect.MakeSlice(t, n, n)]: zeroed storage for [n] elements in a new
    cell, and the header of the slice over it; panics on a negative [n]. *)
Definition MakeSlice (elem : GoType) (n : Z) : M SliceHeader :=
  if n <? 0 then panic ReflectOutOfRange
  else
    fun w =>
      let l := length (heap w) in
      let raw := repeat x00 (Z.to_nat n * Sizeof E elem) in
      Returns (mkSliceHeader (AddrOf l) n n)
              (mkWorld (heap w ++ [CArray elem (Z.to_nat n) raw])
                       (lib w) (calls w)).

(** [reflect.Value.SetLen]: panics unless [0 <= n <= Cap]. *)
Definition SetLen (hdr : SliceHeader) (n : Z) : M SliceHeader :=
  if (n <? 0) || (Cap hdr <? n) then panic ReflectOutOfRange
  else ret (mkSliceHeader (Data hdr) n (Cap hdr)).

(** [reflect.Value.Slice(0, n)] on a string: panics unless [0 <= n <= len];
    the result shares the bytes of the string, and is the zero string when
    the string is empty. *)
Definition Slice0 (o : Origin) (str : list byte) (n : Z)
  : M (Origin * list byte) :=
  if (n <? 0) || (Z.of_nat (length str) <? n) then panic ReflectOutOfRange
  else ret (match str with [] => Outside | _ => o end,
            firstn (Z.to_nat n) str).

(** *** Calls into the C library, logged *)

Definition log (c : Call) (w : World) (st : LibState E) (h : Heap) : World :=
  mkWorld h st (calls w ++ [c]).

Definition C_H5Aget_type (a : hid_t) : M hid_t :=
  fun w =>
    let '(t, st) := H5Aget_type E a (lib w) in
    Returns t (log (Call_H5Aget_type a) w st (heap w)).

Definition C_H5Aclose (a : hid_t) : M herr_t :=
  fun w =>
    let '(rc, st) := H5Aclose E a (lib w) in
    Returns rc (log (Call_H5Aclose a) w st (heap w)).

Definition C_H5Aget_storage_size (a : hid_t) : M Z :=
  fun w => Returns (H5Aget_storage_size E a (lib w)) w.

(** [C.H5Aread(a, t, unsafe.Pointer(addr))] *)
Definition C_H5Aread (a t : hid_t) (addr : uintptr) : M herr_t :=
  fun w =>
    let buf := load (heap w) addr in
    let '(rc, out, st) := H5Aread E a t buf (lib w) in
    Returns rc (log (Call_H5Aread a t (AtAddr addr) buf) w st
                    (store (heap w) addr out)).

(** [C.H5Aread(a, t, unsafe.Pointer(&buf))] for a local string [buf] whose
    bytes lie at [o].  The argument is the address of the header of [buf],
    a variable in Go memory: the pointer check lets the call through only
    if the bytes of [buf] are not in Go memory.  The library then works on
    the header; [H5Aread] of the record stands for what it makes of it:
    given the text [buf] denotes, the text it denotes afterwards, which is
    returned with the status. *)
Definition C_H5Aread_local (a t : hid_t) (o : Origin) (buf : list byte)
  : M (herr_t * list byte) :=
  match o with
  | InGoMemory => panic CgoPointer
  | Outside =>
      fun w =>
        let '(rc, out, st) := H5Aread E a t buf (lib w) in
        Returns (rc, out) (log (Call_H5Aread a t AtLocal buf) w st (heap w))
  end.

Definition C_H5Awrite (a t : hid_t) (addr : uintptr) : M herr_t :=
  fun w =>
    let buf := load (heap w) addr in
    let '(rc, st) := H5Awrite E a t buf (lib w) in
    Returns rc (log (Call_H5Awrite a t (AtAddr addr) buf) w st (heap w)).

(** [C.H5Awrite(a, t, unsafe.Pointer(&str))] for a local string [str]
    whose bytes lie at [o]: checked like the read above; [H5Awrite] of the
    record is given the text [str] denotes. *)
Definition C_H5Awrite_local (a t : hid_t) (o : Origin) (str : list byte)
  : M herr_t :=
  match o with
  | InGoMemory => panic CgoPointer
  | Outside =>
      fun w =>
        let '(rc, st) := H5Awrite E a t str (lib w) in
        Returns rc (log (Call_H5Awrite a t AtLocal str) w st (heap w))
  end.

Definition C_H5Dget_type (d : hid_t) : M hid_t :=
  fun w =>
    let '(t, st) := H5Dget_type E d (lib w) in
    Returns t (log (Call_H5Dget_type d) w st (heap w)).

Definition C_H5Dclose (d : hid_t) : M herr_t :=
  fun w =>
    let '(rc, st) := H5Dclose E d (lib w) in
    Returns rc (log (Call_H5Dclose d) w st (heap w)).

Definition C_H5Dread (d t m f : hid_t) (addr : uintptr) : M herr_t :=
  fun w =>
    let buf := load (heap w) addr in
    let '(rc, out, st) := H5Dread E d t m f 0 buf (lib w) in
    Returns rc (log (Call_H5Dread d t m f (AtAddr addr) buf) w st
                    (store (heap w) addr out)).

(** [C.H5Dwrite(d, t, m, f, 0, addr)].  [WriteSubset] can resolve the
    address of a header or of a pointer variable (its [reflect.Ptr] case),
    which the pointer check refuses when it holds a pointer into Go memory;
    the other raw transfers are aimed at raw bytes. *)
Definition C_H5Dwrite (d t m f : hid_t) (addr : uintptr) : M herr_t :=
  fun w =>
    if holds_go_pointer (heap w) addr then Panics CgoPointer w
    else
      let buf := load (heap w) addr in
      let '(rc, st) := H5Dwrite E d t m f 0 buf (lib w) in
      Returns rc (log (Call_H5Dwrite d t m f (AtAddr addr) buf) w st (heap w)).

Definition C_H5Tclose (t : hid_t) : M herr_t :=
  fun w =>
    let '(rc, st) := H5Tclose E t (lib w) in
    Returns rc (log (Call_H5Tclose t) w st (heap w)).

(** *** Helpers of the package that live in other files *)

(** [newDatatype(id)]: the wrapper around a type handle. *)
Definition newDatatype (i : hid_t) : Datatype := mkIdentifier i.

Definition do_NewDataTypeFromType (t : GoType)
  : M (option Datatype * option error) :=
  fun w =>
    let '(dt, err, st) := NewDataTypeFromType E t (lib w) in
    Returns (dt, err) (mkWorld (heap w) st (calls w)).

(** [typ.GoType()] *)
Definition GoType_of (typ : Datatype) : M GoType :=
  fun w => Returns (Datatype_GoType E typ (lib w)) w.

(** [typ.Size()]; a nil receiver cannot be asked for its handle. *)
Definition Size_of (typ : option Datatype) : M Z :=
  match typ with
  | None => panic NilDereference
  | Some t => fun w => Returns (Datatype_Size E t (lib w)) w
  end.

(** [typ.id] *)
Definition id_of (typ : option Datatype) : M hid_t :=
  match typ with
  | None => panic NilDereference
  | Some t => ret (id t)
  end.

(** Modelled from the spec: [Datatype.Close] is defined in a file that is
    not among the sources.  It releases the type handle the way
    [Attribute.Close] and [Dataset.Close] release theirs ("Close
    idempotent, safe on a zero/already-closed handle"); it reads the [id]
    field of its receiver, which a nil receiver does not have. *)
Definition Datatype_Close (typ : option Datatype) : M (option error) :=
  match typ with
  | None => panic NilDereference
  | Some t =>
      if id t =? 0 then ret None
      else rc <- C_H5Tclose (id t) ;; ret (h5err E rc)
  end.

(** *** h5a.go *)

(** [func (s *Attribute) GetType() *Datatype] *)
Definition Attribute_GetType (s : Attribute) : M Datatype :=
  ftype <- C_H5Aget_type (id s) ;; ret (newDatatype ftype).

(** [func (s *Attribute) Close() error]; the receiver is returned with its
    new [id]. *)
Definition Attribute_Close (s : Attribute) : M (option error * Attribute) :=
  if id s =? 0 then ret (None, s)
  else
    rc <- C_H5Aclose (id s) ;;
    ret (h5err E rc, mkIdentifier 0).

(** The value [reflect.Indirect(v).Interface()] of a pointer variable. *)
Definition pointee (elem : GoType) (p : option loc) : Value :=
  match p with
  | Some l => VPtr l
  | None => VVal (TPtr elem)
  end.

(** The slice case of [Attribute.Read]: the destination gets [ln] elements,
    in its own storage if that is large enough. *)
Definition resize (l : loc) (elem : GoType) (hdr : SliceHeader) (ln : Z)
  : M SliceHeader :=
  hdr' <- (if ln <=? Cap hdr then SetLen hdr ln else MakeSlice elem ln) ;;
  assign l (CSlice elem hdr') ;;;
  ret hdr'.

(** [int(storage) / int(size)] *)
Definition int_div (storage size : Z) : M Z :=
  if to_int size =? 0 then panic DivideByZero
  else ret (to_int (Z.quot (to_int storage) (to_int size))).

(** The string case shared by both variants of [Attribute.Read]: transfer
    into [buf], trim, store.  The text stored is a part of what [buf]
    denotes after the call, and [buf] passed the pointer check. *)
Definition read_string (s : Attribute) (typ : option Datatype) (l : loc)
           (o : Origin) (str : list byte) : M (option error) :=
  size <- C_H5Aget_storage_size (id s) ;;
  let ln := to_int size in
  buf <- (if ln <=? Z.of_nat (length str) then Slice0 o str ln
          else ret (Repeat_NUL ln)) ;;
  t <- id_of typ ;;
  r <- C_H5Aread_local (id s) t (fst buf) (snd buf) ;;
  match h5err E (fst r) with
  | Some rc => ret (Some rc)
  | None => assign l (CString Outside (Trim (snd r))) ;;; ret None
  end.

(** The [switch v.Elem().Kind()] of [Attribute.Read] and what follows it,
    for the variable [c] stored at [l]; [recur] is the recursive call
    [s.Read(reflect.Indirect(v).Interface())]. *)
Definition Attribute_Read_switch (recur : Value -> M (option error))
           (s : Attribute) (typ : Datatype) (l : loc) (c : Cell)
  : M (option error) :=
  match c with
  | CArray elem n _ =>
      if Nat.eqb n 0 then ret None
      else
        t <- GoType_of typ ;;
        if GoType_eq_dec elem t then
          rc <- C_H5Aread (id s) (id typ) (AddrOf l) ;;
          ret (h5err E rc)
        else ret (Some (ErrCantStore t elem))
  | CString o str =>
      t <- GoType_of typ ;;
      if Kind_eq_dec (kind_of t) reflect.String then
        read_string s (Some typ) l o str
      else ret (Some (ErrCantStore t TString))
  | CSlice elem hdr =>
      t <- GoType_of typ ;;
      if GoType_eq_dec elem t then
        storage <- C_H5Aget_storage_size (id s) ;;
        size <- Size_of (Some typ) ;;
        ln <- int_div storage size ;;
        hdr' <- resize l elem hdr ln ;;
        rc <- C_H5Aread (id s) (id typ) (Data hdr') ;;
        ret (h5err E rc)
      else ret (Some (ErrCantStore t elem))
  | CPtr elem p => recur (pointee elem p)
  | CScalar b _ =>
      t <- GoType_of typ ;;
      if GoType_eq_dec (TBasic b) t then
        rc <- C_H5Aread (id s) (id typ) (AddrOf l) ;;
        ret (h5err E rc)
      else ret (Some (ErrCantStore t (TBasic b)))
  end.

(** [func (s *Attribute) Read(data interface{}) error]; each recursive
    call uses one unit of fuel. *)
Fixpoint Attribute_Read (fuel : nat) (s : Attribute) (data : Value)
  : M (option error) :=
  match data with
  | VNilInterface | VVal _ => ret (Some (ErrReadNonPointer (Value_Kind data)))
  | VPtr l =>
      typ <- Attribute_GetType s ;;
      defer (Datatype_Close (Some typ))
        (c <- deref l ;;
         Attribute_Read_switch
           (match fuel with
            | O => fun _ => out_of_fuel
            | S fuel' => Attribute_Read fuel' s
            end) s typ l c)
  end.

(** The end of [Attribute.Write]: derive the type of the source, write. *)
Definition write_tail (s : Attribute) (c : Cell) (addr : uintptr)
  : M (option error) :=
  r <- do_NewDataTypeFromType (cell_type c) ;;
  match snd r with
  | Some err => ret (Some (ErrDatatype err))
  | None =>
      t <- id_of (fst r) ;;
      rc <- C_H5Awrite (id s) t addr ;;
      ret (h5err E rc)
  end.

(** The [switch v.Elem().Kind()] of [Attribute.Write] and what follows it. *)
Definition Attribute_Write_switch (recur : Value -> M (option error))
           (s : Attribute) (l : loc) (c : Cell) : M (option error) :=
  match c with
  | CArray _ _ _ => write_tail s c (AddrOf l)
  | CString o str =>
      r <- do_NewDataTypeFromType (cell_type c) ;;
      match snd r with
      | Some err => ret (Some (ErrDatatype err))
      | None =>
          t <- id_of (fst r) ;;
          rc <- C_H5Awrite_local (id s) t o str ;;
          ret (h5err E rc)
      end
  | CSlice _ hdr => write_tail s c (Data hdr)
  | CPtr elem p => recur (pointee elem p)
  | CScalar _ _ => write_tail s c (AddrOf l)
  end.

(** [func (s *Attribute) Write(data interface{}) error] *)
Fixpoint Attribute_Write (fuel : nat) (s : Attribute) (data : Value)
  : M (option error) :=
  match data with
  | VNilInterface => panic ReflectZeroValue
  | VVal t => ret (Some (ErrWriteNonPointer t))
  | VPtr l =>
      c <- deref l ;;
      Attribute_Write_switch
        (match fuel with
         | O => fun _ => out_of_fuel
         | S fuel' => Attribute_Write fuel' s
         end) s l c
  end.

(** *** h5d.go *)

(** [func (s *Dataset) Close() error] *)
Definition Dataset_Close (s : Dataset) : M (option error * Dataset) :=
  if id s =? 0 then ret (None, s)
  else
    rc <- C_H5Dclose (id s) ;;
    ret (h5err E rc, mkIdentifier 0).

(** [func (s *Dataset) Datatype()], which returns a Datatype pointer and an error *)
Definition Dataset_Datatype (s : Dataset)
  : M (option Datatype * option error) :=
  dtype_id <- C_H5Dget_type (id s) ;;
  if dtype_id <? 0 then
    fun w => Returns (None, Some (ErrOpenDatatype (Identifier_Name E s (lib w)))) w
  else ret (Some (newDatatype dtype_id), None).

(** The handle passed for a [*Dataspace] argument: 0 for nil. *)
Definition space_id (sp : option Dataspace) : hid_t :=
  match sp with
  | Some d => id d
  | None => 0
  end.

(** The part of [ReadSubset] after its switch. *)
Definition read_tail (s : Dataset) (typ : option Datatype)
           (err : option error) (addr : uintptr)
           (memspace filespace : option Dataspace) : M (option error) :=
  defer (Datatype_Close typ)
    (match err with
     | Some e => ret (Some e)
     | None =>
         t <- id_of typ ;;
         rc <- C_H5Dread (id s) t (space_id memspace) (space_id filespace) addr ;;
         ret (h5err E rc)
     end).

(** The [switch v.Elem().Kind()] of [ReadSubset] and what follows it. *)
Definition Dataset_ReadSubset_switch (recur : Value -> M (option error))
           (s : Dataset) (l : loc) (c : Cell)
           (memspace filespace : option Dataspace) : M (option error) :=
  match c with
  | CArray elem _ _ =>
      r <- do_NewDataTypeFromType elem ;;
      read_tail s (fst r) (snd r) (AddrOf l) memspace filespace
  | CSlice elem hdr =>
      r <- do_NewDataTypeFromType elem ;;
      read_tail s (fst r) (snd r) (Data hdr) memspace filespace
  | CString _ _ =>
      r <- do_NewDataTypeFromType TString ;;
      read_tail s (fst r) (snd r) (StringData l) memspace filespace
  | CPtr elem p => recur (pointee elem p)
  | CScalar b _ =>
      r <- do_NewDataTypeFromType (TBasic b) ;;
      read_tail s (fst r) (snd r) (AddrOf l) memspace filespace
  end.

(** [func (s *Dataset) ReadSubset(data interface{}, memspace, filespace *Dataspace) error] *)
Fixpoint Dataset_ReadSubset (fuel : nat) (s : Dataset) (data : Value)
         (memspace filespace : option Dataspace) : M (option error) :=
  match data with
  | VNilInterface | VVal _ => ret (Some (ErrReadNonPointer (Value_Kind data)))
  | VPtr l =>
      c <- deref l ;;
      Dataset_ReadSubset_switch
        (match fuel with
         | O => fun _ => out_of_fuel
         | S fuel' => fun v => Dataset_ReadSubset fuel' s v memspace filespace
         end) s l c memspace filespace
  end.

(** [func (s *Dataset) Read(data interface{}) error] *)
Definition Dataset_Read (fuel : nat) (s : Dataset) (data : Value)
  : M (option error) :=
  Dataset_ReadSubset fuel s data None None.

(** The address [WriteSubset] resolves for its argument.  Only a non-nil
    pointer leads to an addressable value; [UnsafeAddr] panics on the zero
    Value (nil interface, nil pointer) and on a value that is not
    addressable. *)
Definition write_addr (data : Value) : M uintptr :=
  match data with
  | VNilInterface => panic ReflectZeroValue
  | VVal t =>
      match t with
      | TPtr _ => panic ReflectZeroValue
      | _ => panic ReflectUnaddressable
      end
  | VPtr l => c <- deref l ;; ret (write_address l c)
  end.

(** [func (s *Dataset) WriteSubset(data interface{}, memspace, filespace *Dataspace) error] *)
Definition Dataset_WriteSubset (s : Dataset) (data : Value)
           (memspace filespace : option Dataspace) : M (option error) :=
  r <- Dataset_Datatype s ;;
  defer (Datatype_Close (fst r))
    (match snd r with
     | Some e => ret (Some e)
     | None =>
         addr <- write_addr data ;;
         t <- id_of (fst r) ;;
         rc <- C_H5Dwrite (id s) t (space_id memspace) (space_id filespace) addr ;;
         ret (h5err E rc)
     end).


(** *** The second variant of [Attribute.Read]

    It derives the storage type from the destination instead of asking the
    attribute for its own. *)

Definition attr_read_tail (s : Attribute) (typ : option Datatype)
           (err : option error) (addr : uintptr) : M (option error) :=
  defer (Datatype_Close typ)
    (match err with
     | Some e => ret (Some e)
     | None =>
         t <- id_of typ ;;
         rc <- C_H5Aread (id s) t addr ;;
         ret (h5err E rc)
     end).

Definition Attribute_Read_derived_switch (recur : Value -> M (option error))
           (s : Attribute) (l : loc) (c : Cell) : M (option error) :=
  match c with
  | CArray elem n _ =>
      if Nat.eqb n 0 then ret None
      else
        r <- do_NewDataTypeFromType elem ;;
        attr_read_tail s (fst r) (snd r) (AddrOf l)
  | CString o str =>
      r <- do_NewDataTypeFromType TString ;;
      read_string s (fst r) l o str
  | CSlice elem hdr =>
      r <- do_NewDataTypeFromType elem ;;
      storage <- C_H5Aget_storage_size (id s) ;;
      size <- Size_of (fst r) ;;
      ln <- int_div storage size ;;
      hdr' <- resize l elem hdr ln ;;
      attr_read_tail s (fst r) (snd r) (Data hdr')
  | CPtr elem p => recur (pointee elem p)
  | CScalar b _ =>
      r <- do_NewDataTypeFromType (TBasic b) ;;
      attr_read_tail s (fst r) (snd r) (AddrOf l)
  end.

Fixpoint Attribute_Read_derived (fuel : nat) (s : Attribute) (data : Value)
  : M (option error) :=
  match data with
  | VNilInterface | VVal _ => ret (Some (ErrReadNonPointer (Value_Kind data)))
  | VPtr l =>
      c <- deref l ;;
      Attribute_Read_derived_switch
        (match fuel with
         | O => fun _ => out_of_fuel
         | S fuel' => Attribute_Read_derived fuel' s
         end) s l c
  end.

End Marshal.

Arguments Returns {E A} a w.
Arguments Panics {E A} p w.
Arguments OutOfFuel {E A}.
Arguments ret {E A} a w.
Arguments bind {E A B} m k w.
Arguments panic {E A} p w.
Arguments defer {E A B} d body w.
Arguments mkWorld {E} heap lib calls.
Arguments heap {E} w.
Arguments lib {E} w.
Arguments calls {E} w.

(** [v.Kind() == reflect.Ptr && !v.IsNil()]: what [Read] requires of its
    argument. *)
Definition Value_IsNil (v : Value) : bool :=
  match v with
  | VVal (TPtr _) => true
  | _ => false
  end.

Definition is_reference (v : Value) : bool :=
  if Kind_eq_dec (Value_Kind v) reflect.Ptr then negb (Value_IsNil v)
  else false.

(** * A reference store

    One record holding raw bytes, with a table of the type handles it has
    given out.  It serves as the concrete library for the examples; a read
    returns the bytes of the last write, which is what the round trip asks
    of a store. *)

Record RefState : Set := mkRefState {
  content : list byte;                (* the bytes of the record *)
  disk_type : GoType;                 (* native type of its elements *)
  types : list (hid_t * GoType);      (* open type handles *)
  next_id : hid_t;                    (* next handle to give out *)
  read_rc : herr_t;                   (* status of the next raw read *)
  write_rc : herr_t;                  (* status of the next raw write *)
  close_rc : herr_t                   (* status of closing the record *)
}.

Definition new_type (t : GoType) (st : RefState) : hid_t * RefState :=
  (next_id st,
   mkRefState (content st) (disk_type st) ((next_id st, t) :: types st)
              (next_id st + 1) (read_rc st) (write_rc st) (close_rc st)).

Fixpoint lookup_type (i : hid_t) (ts : list (hid_t * GoType)) (d : GoType)
  : GoType :=
  match ts with
  | [] => d
  | (j, t) :: ts' => if j =? i then t else lookup_type i ts' d
  end.

(** Sizes on a 64-bit platform. *)
Fixpoint Sizeof64 (t : GoType) : nat :=
  match t with
  | TBasic b =>
      match b with
      | BBool | BInt8 | BUint8 => 1
      | BInt16 | BUint16 => 2
      | BInt32 | BUint32 | BFloat32 => 4
      | BComplex128 | BInterface => 16
      | BStruct => 0
      | _ => 8
      end
  | TString => 16
  | TArray n e => n * Sizeof64 e
  | TSlice _ => 24
  | TPtr _ => 8
  end%nat.

(** Modelled from the spec: [NewDataTypeFromType] is defined in a file that
    is not among the sources.  "Maps primitive numeric kinds to fixed-size
    storage types of matching width and signedness; maps textual kinds to
    a ... text storage type; fails with UnsupportedType for any kind
    without a defined mapping (e.g., user-defined composite types,
    function types, channel-like types)." *)
Fixpoint supported (t : GoType) : bool :=
  match t with
  | TBasic b =>
      match b with
      | BChan | BFunc | BInterface | BMap | BStruct | BUnsafePointer
      | BUintptr | BComplex64 | BComplex128 => false
      | _ => true
      end
  | TString => true
  | TArray _ e => supported e
  | TSlice e => supported e
  | TPtr e => supported e
  end.

Definition ref_read (buf : list byte) (st : RefState)
  : herr_t * list byte * RefState :=
  (read_rc st, if read_rc st <? 0 then buf else content st, st).

Definition ref_write (buf : list byte) (st : RefState) : herr_t * RefState :=
  (write_rc st,
   if write_rc st <? 0 then st
   else mkRefState buf (disk_type st) (types st) (next_id st)
                   (read_rc st) (write_rc st) (close_rc st)).

Definition RefStore : Hdf5 :=
  {| LibState := RefState;
     H5Aget_type := fun _ st => new_type (disk_type st) st;
     H5Aclose := fun _ st => (close_rc st, st);
     H5Aget_storage_size := fun _ st => Z.of_nat (length (content st));
     H5Aread := fun _ _ buf st => ref_read buf st;
     H5Awrite := fun _ _ buf st => ref_write buf st;
     H5Dget_type := fun _ st =>
       if next_id st <? 0 then (-1, st) else new_type (disk_type st) st;
     H5Dclose := fun _ st => (close_rc st, st);
     H5Dread := fun _ _ _ _ _ buf st => ref_read buf st;
     H5Dwrite := fun _ _ _ _ _ buf st => ref_write buf st;
     H5Tclose := fun _ st => (0, st);
     h5err := fun rc => if rc <? 0 then Some (ErrH5 rc) else None;
     NewDataTypeFromType := fun t st =>
       if supported t then
         let '(i, st') := new_type t st in (Some (mkIdentifier i), None, st')
       else (None, Some (ErrUnsupported t), st);
     Datatype_GoType := fun d st => lookup_type (id d) (types st) (disk_type st);
     Datatype_Size := fun d st =>
       Z.of_nat (Sizeof64 (lookup_type (id d) (types st) (disk_type st)));
     Identifier_Name := fun _ _ => String.EmptyString;
     Sizeof := Sizeof64 |}.

(** A store in working order holding [bs] with element type [t]. *)
Definition ref_state (bs : list byte) (t : GoType) : RefState :=
  mkRefState bs t [] 100 0 0 0.

Definition ref_world (h : Heap) (st : RefState) : World RefStore :=
  @mkWorld RefStore h st [].

(** ** Vocabulary of the properties *)

(** A call that succeeded without touching Go memory and without a raw
    transfer. *)
Definition no_op_success {E : Hdf5} (out : Outcome E (option error))
           (w : World E) : Prop :=
  exists w', out = Returns None w' /\
             heap w' = heap w /\
             transfers (calls w') = transfers (calls w).

(** The type [Attribute.Read] gets from [s.GetType()] in the world [w],
    and the world after that call. *)
Definition queried_type {E : Hdf5} (s : Attribute) (w : World E) : Datatype :=
  newDatatype (fst (H5Aget_type E (id s) (lib w))).

Definition after_GetType {E : Hdf5} (s : Attribute) (w : World E) : World E :=
  mkWorld (heap w) (snd (H5Aget_type E (id s) (lib w)))
          (calls w ++ [Call_H5Aget_type (id s)]).

(** The world after [typ.Close()] for a non-nil [typ]. *)
Definition after_Close {E : Hdf5} (typ : Datatype) (w : World E) : World E :=
  if id typ =? 0 then w
  else mkWorld (heap w) (snd (H5Tclose E (id typ) (lib w)))
               (calls w ++ [Call_H5Tclose (id typ)]).

(** What [Attribute.Read] learns about the record once it holds the
    queried type: its native Go type, [int(typ.Size())],
    [int(C.H5Aget_storage_size(s.id))] and the quotient of the two. *)
Definition disk_GoType {E : Hdf5} (s : Attribute) (w : World E) : GoType :=
  Datatype_GoType E (queried_type s w) (lib (after_GetType s w)).

Definition disk_elem_size {E : Hdf5} (s : Attribute) (w : World E) : Z :=
  to_int (Datatype_Size E (queried_type s w) (lib (after_GetType s w))).

Definition storage_size {E : Hdf5} (s : Attribute) (w : World E) : Z :=
  to_int (H5Aget_storage_size E (id s) (lib (after_GetType s w))).

Definition on_disk_count {E : Hdf5} (s : Attribute) (w : World E) : Z :=
  to_int (Z.quot (storage_size s w) (disk_elem_size s w)).

(** The buffer the string case of [Attribute.Read] hands to the raw read
    when the record stores [ln] bytes: the first [ln] bytes of the
    destination if it has that many, else [ln] NUL bytes. *)
Definition string_buffer (str : list byte) (ln : Z) : list byte :=
  if ln <=? Z.of_nat (length str) then firstn (Z.to_nat ln) str
  else repeat x00 (Z.to_nat ln).

(** Where the bytes of that buffer lie, for a destination whose bytes lie
    at [o]. *)
Definition string_buffer_origin (o : Origin) (str : list byte) (ln : Z)
  : Origin :=
  if ln <=? Z.of_nat (length str) then
    match str with
    | [] => Outside
    | _ => o
    end
  else fst (Repeat_NUL ln).

(** The answer of the store to the raw read of the string case. *)
Definition text_read {E : Hdf5} (s : Attribute) (w : World E)
           (str : list byte) : herr_t * list byte * LibState E :=
  H5Aread E (id s) (id (queried_type s w))
          (string_buffer str (storage_size s w)) (lib (after_GetType s w)).

(** The type the messages of [Attribute.Read] name for the destination, and
    the comparison each branch of its switch makes with the queried type. *)
Definition elem_type (c : Cell) : GoType :=
  match c with
  | CArray elem _ _ => elem
  | CSlice elem _ => elem
  | CString _ _ => TString
  | CScalar b _ => TBasic b
  | CPtr elem _ => TPtr elem
  end.

Definition mismatch (c : Cell) (disk : GoType) : bool :=
  match c with
  | CArray elem _ _ => if GoType_eq_dec elem disk then false else true
  | CSlice elem _ => if GoType_eq_dec elem disk then false else true
  | CString _ _ =>
      if Kind_eq_dec (kind_of disk) reflect.String then false else true
  | CScalar b _ => if GoType_eq_dec (TBasic b) disk then false else true
  | CPtr _ _ => false
  end.

Definition empty_array (c : Cell) : bool :=
  match c with
  | CArray _ n _ => Nat.eqb n 0
  | _ => false
  end.

(** A call that failed with the type-mismatch error, without touching Go
    memory and without a raw transfer. *)
Definition rejects_mismatch {E : Hdf5} (out : Outcome E (option error))
           (w : World E) (disk dest : GoType) : Prop :=
  exists w', out = Returns (Some (ErrCantStore disk dest)) w' /\
             heap w' = heap w /\
             transfers (calls w') = transfers (calls w).

(** The slice variable [l] has length [n] after the call. *)
Definition resized {E : Hdf5} (out : Outcome E (option error))
           (l : loc) (n : Z) : Prop :=
  exists r w' elem hdr,
    out = Returns r w' /\
    nth_error (heap w') l = Some (CSlice elem hdr) /\
    Len hdr = n.

(** [t] is [s] without the NUL bytes at its two ends. *)
Definition trimmed (s t : list byte) : Prop :=
  exists pre post,
    s = pre ++ t ++ post /\
    Forall (eq x00) pre /\ Forall (eq x00) post /\
    hd_error t <> Some x00 /\
    hd_error (rev t) <> Some x00.

(** The call succeeded and the string variable [l] holds a text with no
    NUL byte at either end. *)
Definition reads_trimmed {E : Hdf5} (out : Outcome E (option error))
           (l : loc) : Prop :=
  exists w' o t,
    out = Returns None w' /\
    nth_error (heap w') l = Some (CString o t) /\
    hd_error t <> Some x00 /\
    hd_error (rev t) <> Some x00.

(** Cells the switches send to the recursive call. *)
Definition pointer_cell (c : Cell) : bool :=
  match c with
  | CPtr _ _ => true
  | _ => false
  end.

Definition string_cell (c : Cell) : bool :=
  match c with
  | CString _ _ => true
  | _ => false
  end.

Definition is_Tclose (c : Call) : bool :=
  match c with
  | Call_H5Tclose _ => true
  | _ => false
  end.




(** Scalars and arrays: variables that are their own bytes. *)
Definition flat_cell (c : Cell) : bool :=
  match c with
  | CScalar _ _ | CArray _ _ _ => true
  | _ => false
  end.

(** ** The round trip *)






(** ** Example worlds *)

(** A store whose close fails with status -1. *)
Definition w_close_fails : World RefStore :=
  ref_world [] (mkRefState [] TString [] 100 0 0 (-1)).

(** No variable at all; the record holds an [int]. *)
Definition w_no_variable : World RefStore :=
  ref_world [] (ref_state [] (TBasic BInt)).

(** Variable 0 is a [[0]int]; the record holds [int] elements. *)
Definition w_empty_array : World RefStore :=
  ref_world [CArray (TBasic BInt) 0 []] (ref_state [] (TBasic BInt)).

(** Variable 0 is a [[0]int]; the record holds [float64] elements. *)
Definition w_empty_array_float : World RefStore :=
  ref_world [CArray (TBasic BInt) 0 []] (ref_state [] (TBasic BFloat64)).

(** Variable 0 is an [int32]; the record holds [float64] elements. *)
Definition w_int32_float : World RefStore :=
  ref_world [CScalar BInt32 [x00; x00; x00; x00]]
            (ref_state (repeat x01 8) (TBasic BFloat64)).

(** Variable 0 is a [[]int64] of length and capacity 2 over variable 1; the
    record holds five [int64], 40 bytes. *)
Definition short_slice : SliceHeader := mkSliceHeader (AddrOf 1%nat) 2 2.

Definition w_short_slice : World RefStore :=
  ref_world [CSlice (TBasic BInt64) short_slice;
             CArray (TBasic BInt64) 2 (repeat x00 16)]
            (ref_state (repeat x01 40) (TBasic BInt64)).

(** "hello" in a fixed 8-byte text record, and an 8-byte destination. *)
Definition hello : list byte := [x68; x65; x6c; x6c; x6f].

Definition w_padded_text : World RefStore :=
  ref_world [CString Outside (repeat x20 8)]
            (ref_state (hello ++ [x00; x00; x00]) TString).

(** The same, with a destination built at run time. *)
Definition w_padded_built : World RefStore :=
  ref_world [CString InGoMemory (repeat x20 8)]
            (ref_state (hello ++ [x00; x00; x00]) TString).

(** "hello" in a text record, and a zero-valued destination. *)
Definition w_empty_text : World RefStore :=
  ref_world [CString Outside []] (ref_state hello TString).

(** Variable 0 is a [complex128], for which no storage type can be
    derived; the store cannot open the type of the dataset either. *)
Definition w_underivable : World RefStore :=
  ref_world [CScalar BComplex128 (repeat x00 16)]
            (mkRefState [] (TBasic BFloat64) [] (-1) 0 0 0).

(** Variable 0 is an [int] holding 42; the record holds an [int]. *)
Definition forty_two : list byte := [x2a; x00; x00; x00; x00; x00; x00; x00].

Definition w_int : World RefStore :=
  ref_world [CScalar BInt forty_two] (ref_state (repeat x00 8) (TBasic BInt)).




(** ** Pointers to pointers, and how a call ends *)

(** The variable reached from [l] through [n] pointer variables, none of
    them nil. *)
Fixpoint follow (h : Heap) (n : nat) (l : loc) : option loc :=
  match n with
  | O => Some l
  | S n' =>
      match nth_error h l with
      | Some (CPtr _ (Some l')) => follow h n' l'
      | _ => None
      end
  end.

(** The world a call leaves behind, by return or by panic. *)
Definition final_world {E : Hdf5} {A : Type} (out : Outcome E A)
  : option (World E) :=
  match out with
  | Returns _ w => Some w
  | Panics _ w => Some w
  | OutOfFuel => None
  end.

(** What the caller sees: the returned value, or the panic. *)
Definition result_of {E : Hdf5} {A : Type} (out : Outcome E A)
  : option (A + PanicReason) :=
  match out with
  | Returns a _ => Some (inl a)
  | Panics p _ => Some (inr p)
  | OutOfFuel => None
  end.

(** The outcome [out] of a function body, once the deferred [typ.Close()]
    has run. *)
Definition finish {E : Hdf5} {A : Type} (typ : Datatype) (out : Outcome E A)
  : Outcome E A :=
  match out with
  | Returns a w => Returns a (after_Close typ w)
  | Panics p w => Panics p (after_Close typ w)
  | OutOfFuel => OutOfFuel
  end.

(** [n] nested calls of [Attribute.Read]: the world after their [n] type
    queries, and an outcome carried back through their [n] deferred
    closes, innermost first. *)
Fixpoint after_GetTypes {E : Hdf5} (n : nat) (s : Attribute) (w : World E)
  : World E :=
  match n with
  | O => w
  | S n' => after_GetTypes n' s (after_GetType s w)
  end.

Fixpoint closing {E : Hdf5} {A : Type} (n : nat) (s : Attribute)
         (w : World E) (out : Outcome E A) : Outcome E A :=
  match n with
  | O => out
  | S n' => finish (queried_type s w) (closing n' s (after_GetType s w) out)
  end.

(** Variable 0 is a [*int] pointing to variable 1, an [int] holding 0; the
    record holds the [int] 42. *)
Definition w_pointer : World RefStore :=
  ref_world [CPtr (TBasic BInt) (Some 1%nat); CScalar BInt (repeat x00 8)]
            (ref_state forty_two (TBasic BInt)).

(** Variable 0 is a nil [*int]; variable 1 is a [**int] pointing to it. *)
Definition w_nil_pointer : World RefStore :=
  ref_world [CPtr (TBasic BInt) None;
             CPtr (TPtr (TBasic BInt)) (Some 0%nat)]
            (ref_state forty_two (TBasic BInt)).


(** The handle [Dataset.Datatype] gets for the type of the dataset, and the
    state of the library after that query. *)
Definition dataset_type {E : Hdf5} (s : Dataset) (w : World E) : hid_t :=
  fst (H5Dget_type E (id s) (lib w)).



(** The answer of the store to the raw read [ReadSubset] makes into the
    variable [c] at [l] with the type [dt], in the library state [st]. *)
Definition dataset_read {E : Hdf5} (s : Dataset) (dt : Datatype)
           (memspace filespace : option Dataspace) (h : Heap) (l : loc)
           (c : Cell) (st : LibState E) : herr_t * list byte * LibState E :=
  H5Dread E (id s) (id dt) (space_id memspace) (space_id filespace) 0
          (load h (read_address l c)) st.


(** The answer of the store to the raw read [Attribute.Read] makes at the
    address of the variable [l]. *)
Definition attribute_read {E : Hdf5} (s : Attribute) (w : World E) (l : loc)
  : herr_t * list byte * LibState E :=
  H5Aread E (id s) (id (queried_type s w)) (load (heap w) (AddrOf l))
          (lib (after_GetType s w)).



(** Variable 0 is an empty slice of an empty struct type, whose size is 0;
    the record holds elements of that type. *)
Definition w_struct_slice : World RefStore :=
  ref_world [CSlice (TBasic BStruct) (mkSliceHeader Null 0 0)]
            (ref_state (repeat x00 8) (TBasic BStruct)).

(** The storage [reflect.MakeSlice] allocates for [n] elements. *)
Definition zeroed (E : Hdf5) (elem : GoType) (n : Z) : list byte :=
  repeat x00 (Z.to_nat n * Sizeof E elem).

(** ** Opening an attribute and reading it: [openAttribute], [readAttr] *)

(** What [openAttribute] needs beyond the above: [H5Aopen] of hdf5.h, and
    [checkID] and [P_DEFAULT] of the package, which are defined in files
    that are not among the sources.  The C copy of the name that
    [C.CString] makes and [C.free] releases is not modelled, and neither
    is the finalizer that [newAttribute] registers: garbage collection is
    outside the model. *)
Record AttrOpen (E : Hdf5) : Type := mkAttrOpen {
  H5Aopen : hid_t -> String.string -> hid_t -> LibState E ->
            hid_t * LibState E;
  checkID : hid_t -> option error;
  P_DEFAULT : Identifier
}.

Arguments H5Aopen {E} _ _ _ _ _.
Arguments checkID {E} _ _.
Arguments P_DEFAULT {E} _.

(** The error [readAttr] returns: the one it builds itself, or an error of
    [Attribute.Read], which it returns as it is. *)
Inductive readAttr_error : Set :=
| ErrOpening (e : error)
    (* "Error %v opening Attribute, may not exist or name is incorrect" *)
| ErrOfRead (e : error).

Section Open.

Variable E : Hdf5.
Variable O : AttrOpen E.

Definition C_H5Aopen (loc_id : hid_t) (name : String.string) (aapl : hid_t)
  : M E hid_t :=
  fun w =>
    let '(hid, st) := H5Aopen O loc_id name aapl (lib w) in
    Returns hid (mkWorld (heap w) st (calls w)).

(** [func newAttribute(id C.hid_t) *Attribute] *)
Definition newAttribute (i : hid_t) : Attribute := mkIdentifier i.

(** [func openAttribute(id C.hid_t, name string)], which returns an
    attribute and an error *)
Definition openAttribute (i : hid_t) (name : String.string)
  : M E (option Attribute * option error) :=
  bind (C_H5Aopen i name (id (P_DEFAULT O))) (fun hid =>
  match checkID O hid with
  | Some err => ret (None, Some err)
  | None => ret (Some (newAttribute hid), None)
  end).

(** [func GetAttribute(id Identifier, name string)] *)
Definition GetAttribute (i : Identifier) (name : String.string)
  : M E (option Attribute * option error) :=
  openAttribute (id i) name.

(** [func (s *Dataset) OpenAttribute(name string)] *)
Definition Dataset_OpenAttribute (s : Dataset) (name : String.string)
  : M E (option Attribute * option error) :=
  openAttribute (id s) name.

(** [func readAttr(id Identifier, name string, data interface{}) error].
    With a nil [attr] and no error, which [openAttribute] never returns,
    [attr.Read] returns an error or panics at [s.id] before any call of the
    library, and the deferred [attr.Close()] panics at [s.id]. *)
Definition readAttr (fuel : nat) (i : Identifier) (name : String.string)
           (data : Value) : M E (option readAttr_error) :=
  bind (openAttribute (id i) name) (fun r =>
  match r with
  | (_, Some err) => ret (Some (ErrOpening err))
  | (Some attr, None) =>
      defer (Attribute_Close E attr)
            (bind (Attribute_Read E fuel attr data) (fun e =>
             ret (option_map ErrOfRead e)))
  | (None, None) => panic NilDereference
  end).

End Open.

Arguments C_H5Aopen {E} O loc_id name aapl w.
Arguments openAttribute {E} O i name w.
Arguments GetAttribute {E} O i name w.
Arguments Dataset_OpenAttribute {E} O s name w.
Arguments readAttr {E} O fuel i name data w.

(** The handle [H5Aopen] gives for [name] at the object [i] in the world
    [w], and the world after the call. *)
Definition opened_handle {E : Hdf5} (O : AttrOpen E) (i : Identifier)
           (name : String.string) (w : World E) : hid_t :=
  fst (H5Aopen O (id i) name (id (P_DEFAULT O)) (lib w)).

Definition after_open {E : Hdf5} (O : AttrOpen E) (i : Identifier)
           (name : String.string) (w : World E) : World E :=
  mkWorld (heap w) (snd (H5Aopen O (id i) name (id (P_DEFAULT O)) (lib w)))
          (calls w).

(** What the caller of [readAttr] sees of what [Attribute.Read] returned or
    raised. *)
Definition passed_on (r : option (option error + PanicReason))
  : option (option readAttr_error + PanicReason) :=
  match r with
  | Some (inl e) => Some (inl (option_map ErrOfRead e))
  | Some (inr p) => Some (inr p)
  | None => None
  end.

(** The names "units" and "unit". *)
Definition units : String.string :=
  String.string_of_list_byte [x75; x6e; x69; x74; x73].

Definition unit_ : String.string :=
  String.string_of_list_byte [x75; x6e; x69; x74].

(** A store in which the attribute "units" exists, with the handle 7, and
    no other. *)
Definition RefOpen : AttrOpen RefStore :=
  {| H5Aopen := fun _ name _ st =>
       (if String.eqb name units then 7 else -1, st);
     checkID := fun hid => if hid <? 0 then Some (ErrH5 hid) else None;
     P_DEFAULT := mkIdentifier 0 |}.

(** The world [w_int] after the record was read into variable 0 through
    the handle 7. *)
Definition w_int_read : World RefStore :=
  @mkWorld RefStore [CScalar BInt (repeat x00 8)]
           (mkRefState (repeat x00 8) (TBasic BInt) [(100, TBasic BInt)] 101
                       0 0 0)
           [Call_H5Aget_type 7;
            Call_H5Aread 7 100 (AtAddr (AddrOf 0%nat)) forty_two;
            Call_H5Tclose 100].

(** * Properties *)

(** ** Close *)

Section CloseProperties.

Variable E : Hdf5.

Lemma Attribute_Close_closed (w : World E) :
  Attribute_Close E (mkIdentifier 0) w = Returns (None, mkIdentifier 0) w.
Proof. reflexivity. Qed.

Lemma Dataset_Close_closed (w : World E) :
  Dataset_Close E (mkIdentifier 0) w = Returns (None, mkIdentifier 0) w.
Proof. reflexivity. Qed.

Lemma Attribute_Close_open (s : Attribute) (w : World E) :
  id s <> 0 ->
  Attribute_Close E s w =
  Returns (h5err E (fst (H5Aclose E (id s) (lib w))), mkIdentifier 0)
          (mkWorld (heap w) (snd (H5Aclose E (id s) (lib w)))
                   (calls w ++ [Call_H5Aclose (id s)])).
Proof.
  intros Hid. unfold Attribute_Close.
  destruct (Z.eqb_spec (id s) 0) as [H0 | _]; [contradiction |].
  unfold bind, C_H5Aclose, ret, log.
  destruct (H5Aclose E (id s) (lib w)) as [rc st]. reflexivity.
Qed.

Lemma Dataset_Close_open (s : Dataset) (w : World E) :
  id s <> 0 ->
  Dataset_Close E s w =
  Returns (h5err E (fst (H5Dclose E (id s) (lib w))), mkIdentifier 0)
          (mkWorld (heap w) (snd (H5Dclose E (id s) (lib w)))
                   (calls w ++ [Call_H5Dclose (id s)])).
Proof.
  intros Hid. unfold Dataset_Close.
  destruct (Z.eqb_spec (id s) 0) as [H0 | _]; [contradiction |].
  unfold bind, C_H5Dclose, ret, log.
  destruct (H5Dclose E (id s) (lib w)) as [rc st]. reflexivity.
Qed.

End CloseProperties.

(** C6: on an Attribute as on a Dataset, a second [Close] after a first
    one returns nil and leaves the handle and the world as they were. *)
Theorem Close_twice_is_safe (E : Hdf5) (s : Identifier) (w : World E) :
  (exists e s1 w1,
      Attribute_Close E s w = Returns (e, s1) w1 /\
      Attribute_Close E s1 w1 = Returns (None, s1) w1) /\
  (exists e s1 w1,
      Dataset_Close E s w = Returns (e, s1) w1 /\
      Dataset_Close E s1 w1 = Returns (None, s1) w1).
Proof.
  destruct (Z.eq_dec (id s) 0) as [H0 | Hn].
  - destruct s as [i]; simpl in H0; subst i.
    split; exists None, (mkIdentifier 0), w; split; reflexivity.
  - split.
    + rewrite (Attribute_Close_open E s w Hn).
      do 3 eexists; split; [reflexivity | apply Attribute_Close_closed].
    + rewrite (Dataset_Close_open E s w Hn).
      do 3 eexists; split; [reflexivity | apply Dataset_Close_closed].
Qed.

(** C10: [Close] on an open Attribute or Dataset passes the handle to the
    store once and leaves the stored handle 0 whatever the store answers;
    the answer is reported by this call, and every later [Close] of the
    record returns nil without calling the store. *)
Theorem Close_clears_handle (E : Hdf5) (s : Identifier) (w : World E) :
  id s <> 0 ->
  (exists w1,
      Attribute_Close E s w =
        Returns (h5err E (fst (H5Aclose E (id s) (lib w))), mkIdentifier 0) w1 /\
      calls w1 = calls w ++ [Call_H5Aclose (id s)] /\
      forall w2 : World E,
        Attribute_Close E (mkIdentifier 0) w2 = Returns (None, mkIdentifier 0) w2) /\
  (exists w1,
      Dataset_Close E s w =
        Returns (h5err E (fst (H5Dclose E (id s) (lib w))), mkIdentifier 0) w1 /\
      calls w1 = calls w ++ [Call_H5Dclose (id s)] /\
      forall w2 : World E,
        Dataset_Close E (mkIdentifier 0) w2 = Returns (None, mkIdentifier 0) w2).
Proof.
  intros Hn. split.
  - rewrite (Attribute_Close_open E s w Hn). eexists. split; [reflexivity |].
    split; [reflexivity | apply Attribute_Close_closed].
  - rewrite (Dataset_Close_open E s w Hn). eexists. split; [reflexivity |].
    split; [reflexivity | apply Dataset_Close_closed].
Qed.

(** A record with handle 7 in a store whose close fails with -1: the error
    is reported, the handle is cleared. *)
Lemma Close_clears_handle_witness :
  (exists w1,
      Attribute_Close RefStore (mkIdentifier 7) w_close_fails =
        Returns (Some (ErrH5 (-1)), mkIdentifier 0) w1 /\
      calls w1 = [Call_H5Aclose 7] /\
      forall w2 : World RefStore,
        Attribute_Close RefStore (mkIdentifier 0) w2 =
          Returns (None, mkIdentifier 0) w2) /\
  (exists w1,
      Dataset_Close RefStore (mkIdentifier 7) w_close_fails =
        Returns (Some (ErrH5 (-1)), mkIdentifier 0) w1 /\
      calls w1 = [Call_H5Dclose 7] /\
      forall w2 : World RefStore,
        Dataset_Close RefStore (mkIdentifier 0) w2 =
          Returns (None, mkIdentifier 0) w2).
Proof.
  apply (Close_clears_handle RefStore (mkIdentifier 7) w_close_fails).
  simpl. discriminate.
Defined.

(** ** Rejected arguments *)

(** C8: when the argument of [Read] is not a pointer, or is a nil pointer,
    [Attribute.Read], [Dataset.ReadSubset] and [Dataset.Read] return the
    error built for that case and leave the world as it was: no library
    call is made. *)
Theorem Read_rejects_invalid_target
        (E : Hdf5) (fuel : nat) (s : Identifier) (data : Value)
        (memspace filespace : option Dataspace) (w : World E) :
  is_reference data = false ->
  Attribute_Read E fuel s data w =
    Returns (Some (ErrReadNonPointer (Value_Kind data))) w /\
  Dataset_ReadSubset E fuel s data memspace filespace w =
    Returns (Some (ErrReadNonPointer (Value_Kind data))) w /\
  Dataset_Read E fuel s data w =
    Returns (Some (ErrReadNonPointer (Value_Kind data))) w.
Proof.
  intros Hd. unfold Dataset_Read.
  destruct data as [| t | l]; [| | discriminate Hd];
    destruct fuel; repeat split; reflexivity.
Qed.

(** An [int] passed by value, and a nil [*int]. *)
Lemma Read_rejects_invalid_target_witness :
  (Attribute_Read RefStore 1 (mkIdentifier 7) (VVal (TBasic BInt)) w_no_variable =
     Returns (Some (ErrReadNonPointer reflect.Int)) w_no_variable /\
   Dataset_ReadSubset RefStore 1 (mkIdentifier 7) (VVal (TBasic BInt))
                      None None w_no_variable =
     Returns (Some (ErrReadNonPointer reflect.Int)) w_no_variable /\
   Dataset_Read RefStore 1 (mkIdentifier 7) (VVal (TBasic BInt)) w_no_variable =
     Returns (Some (ErrReadNonPointer reflect.Int)) w_no_variable) /\
  (Attribute_Read RefStore 1 (mkIdentifier 7) (VVal (TPtr (TBasic BInt)))
                  w_no_variable =
     Returns (Some (ErrReadNonPointer reflect.Ptr)) w_no_variable /\
   Dataset_ReadSubset RefStore 1 (mkIdentifier 7) (VVal (TPtr (TBasic BInt)))
                      None None w_no_variable =
     Returns (Some (ErrReadNonPointer reflect.Ptr)) w_no_variable /\
   Dataset_Read RefStore 1 (mkIdentifier 7) (VVal (TPtr (TBasic BInt)))
                w_no_variable =
     Returns (Some (ErrReadNonPointer reflect.Ptr)) w_no_variable).
Proof.
  split.
  - apply (Read_rejects_invalid_target RefStore 1 (mkIdentifier 7)
             (VVal (TBasic BInt)) None None w_no_variable). reflexivity.
  - apply (Read_rejects_invalid_target RefStore 1 (mkIdentifier 7)
             (VVal (TPtr (TBasic BInt))) None None w_no_variable). reflexivity.
Defined.

(** ** How [Attribute.Read] runs on a pointer *)

Section ReadProperties.

Variable E : Hdf5.

Lemma transfers_app (a b : list Call) :
  transfers (a ++ b) = transfers a ++ transfers b.
Proof. apply filter_app. Qed.

Lemma after_Close_heap (typ : Datatype) (w : World E) :
  heap (after_Close typ w) = heap w.
Proof. unfold after_Close. destruct (id typ =? 0); reflexivity. Qed.

Lemma after_Close_transfers (typ : Datatype) (w : World E) :
  transfers (calls (after_Close typ w)) = transfers (calls w).
Proof.
  unfold after_Close. destruct (id typ =? 0); [reflexivity |].
  simpl. rewrite transfers_app. simpl. apply app_nil_r.
Qed.

(** An open type is closed by one call of the library. *)
Lemma after_Close_calls (typ : Datatype) (w : World E) :
  id typ <> 0 ->
  calls (after_Close typ w) = calls w ++ [Call_H5Tclose (id typ)].
Proof.
  intros Hn. unfold after_Close.
  destruct (Z.eqb_spec (id typ) 0); [contradiction | reflexivity].
Qed.

(** [typ.Close()] on a non-nil [typ] returns. *)
Lemma Datatype_Close_Some (typ : Datatype) (w : World E) :
  exists e, Datatype_Close E (Some typ) w = Returns e (after_Close typ w).
Proof.
  unfold Datatype_Close, after_Close. destruct (id typ =? 0).
  - exists None. reflexivity.
  - unfold bind, C_H5Tclose, ret, log.
    destruct (H5Tclose E (id typ) (lib w)) as [rc st]. eexists. reflexivity.
Qed.

Lemma defer_Close_Returns {A} (typ : Datatype) (body : M E A)
      (w w' : World E) (a : A) :
  body w = Returns a w' ->
  defer (Datatype_Close E (Some typ)) body w = Returns a (after_Close typ w').
Proof.
  intros Hb. unfold defer. rewrite Hb.
  destruct (Datatype_Close_Some typ w') as [e He]. rewrite He. reflexivity.
Qed.

Lemma defer_Close_Panics {A} (typ : Datatype) (body : M E A)
      (w w' : World E) (p : PanicReason) :
  body w = Panics p w' ->
  defer (Datatype_Close E (Some typ)) body w = Panics p (after_Close typ w').
Proof.
  intros Hb. unfold defer. rewrite Hb.
  destruct (Datatype_Close_Some typ w') as [e He]. rewrite He. reflexivity.
Qed.

(** [Attribute.Read] on a pointer to the variable [c]: query the type,
    run the switch, close the type. *)
Lemma Attribute_Read_VPtr (fuel : nat) (s : Attribute) (l : loc) (c : Cell)
      (w : World E) :
  nth_error (heap w) l = Some c ->
  exists recur,
    Attribute_Read E fuel s (VPtr l) w =
    defer (Datatype_Close E (Some (queried_type s w)))
          (Attribute_Read_switch E recur s (queried_type s w) l c)
          (after_GetType s w).
Proof.
  intros Hc.
  exists (match fuel with
          | O => fun _ _ => OutOfFuel
          | S fuel' => Attribute_Read E fuel' s
          end).
  destruct fuel; cbn [Attribute_Read];
    unfold bind at 1, Attribute_GetType, bind at 1, C_H5Aget_type,
           queried_type, after_GetType, log, ret;
    destruct (H5Aget_type E (id s) (lib w)) as [t st]; cbn [fst snd];
    unfold defer, bind at 1, deref; cbn [heap]; rewrite Hc; reflexivity.
Qed.

Lemma Attribute_Read_derived_VPtr (fuel : nat) (s : Attribute) (l : loc)
      (c : Cell) (w : World E) :
  nth_error (heap w) l = Some c ->
  exists recur,
    Attribute_Read_derived E fuel s (VPtr l) w =
    Attribute_Read_derived_switch E recur s l c w.
Proof.
  intros Hc.
  exists (match fuel with
          | O => fun _ _ => OutOfFuel
          | S fuel' => Attribute_Read_derived E fuel' s
          end).
  destruct fuel; cbn [Attribute_Read_derived];
    unfold bind at 1, deref; rewrite Hc; reflexivity.
Qed.

Lemma Dataset_ReadSubset_VPtr (fuel : nat) (s : Dataset) (l : loc)
      (c : Cell) (m f : option Dataspace) (w : World E) :
  nth_error (heap w) l = Some c ->
  exists recur,
    Dataset_ReadSubset E fuel s (VPtr l) m f w =
    Dataset_ReadSubset_switch E recur s l c m f w.
Proof.
  intros Hc.
  exists (match fuel with
          | O => fun _ _ => OutOfFuel
          | S fuel' => fun v => Dataset_ReadSubset E fuel' s v m f
          end).
  destruct fuel; cbn [Dataset_ReadSubset];
    unfold bind at 1, deref; rewrite Hc; reflexivity.
Qed.

(** However the switch of [Attribute.Read] ends, by return or by panic,
    the queried type is closed before [Read] is left. *)
Lemma Attribute_Read_closes_type (fuel : nat) (s : Attribute) (l : loc)
      (c : Cell) (w : World E) :
  nth_error (heap w) l = Some c ->
  exists recur,
    match Attribute_Read_switch E recur s (queried_type s w) l c
                                (after_GetType s w) with
    | Returns r w' =>
        Attribute_Read E fuel s (VPtr l) w =
        Returns r (after_Close (queried_type s w) w')
    | Panics p w' =>
        Attribute_Read E fuel s (VPtr l) w =
        Panics p (after_Close (queried_type s w) w')
    | OutOfFuel => Attribute_Read E fuel s (VPtr l) w = OutOfFuel
    end.
Proof.
  intros Hc.
  destruct (Attribute_Read_VPtr fuel s l c w Hc) as [recur Hrd].
  exists recur. rewrite Hrd.
  destruct (Attribute_Read_switch E recur s (queried_type s w) l c
                                  (after_GetType s w)) as [r w' | p w' |] eqn:Hb.
  - apply defer_Close_Returns. assumption.
  - apply defer_Close_Panics. assumption.
  - unfold defer. rewrite Hb. reflexivity.
Qed.

(** The array case with no element: the type is queried and closed,
    nothing else happens. *)
Lemma Attribute_Read_array0 (fuel : nat) (s : Attribute) (l : loc)
      (elem : GoType) (raw : list byte) (w : World E) :
  nth_error (heap w) l = Some (CArray elem 0 raw) ->
  Attribute_Read E fuel s (VPtr l) w =
  Returns None (after_Close (queried_type s w) (after_GetType s w)).
Proof.
  intros Hc.
  destruct (Attribute_Read_VPtr fuel s l _ w Hc) as [recur ->].
  apply defer_Close_Returns. reflexivity.
Qed.

End ReadProperties.

(** ** Reading into a fixed array of length 0 *)

(** C7, for [Attribute.Read] (in both variants): a pointer to an array of
    length 0 makes [Read] return nil; Go memory is as before and no raw
    transfer has been made. *)
Theorem Attribute_Read_empty_array
        (E : Hdf5) (fuel : nat) (s : Attribute) (l : loc)
        (elem : GoType) (raw : list byte) (w : World E) :
  nth_error (heap w) l = Some (CArray elem 0 raw) ->
  no_op_success (Attribute_Read E fuel s (VPtr l) w) w /\
  no_op_success (Attribute_Read_derived E fuel s (VPtr l) w) w.
Proof.
  intros Hc. split.
  - rewrite (Attribute_Read_array0 E fuel s l elem raw w Hc).
    eexists. split; [reflexivity |].
    rewrite after_Close_heap, after_Close_transfers. simpl.
    rewrite transfers_app. simpl. rewrite app_nil_r. split; reflexivity.
  - destruct (Attribute_Read_derived_VPtr E fuel s l _ w Hc) as [recur ->].
    exists w. repeat split.
Qed.

(** A [[0]int] variable, read from an attribute of ints. *)
Lemma Attribute_Read_empty_array_witness :
  no_op_success (Attribute_Read RefStore 0 (mkIdentifier 7) (VPtr 0%nat)
                                w_empty_array) w_empty_array /\
  no_op_success (Attribute_Read_derived RefStore 0 (mkIdentifier 7) (VPtr 0%nat)
                                        w_empty_array) w_empty_array.
Proof.
  apply (Attribute_Read_empty_array RefStore 0 (mkIdentifier 7) 0%nat
           (TBasic BInt) [] w_empty_array).
  reflexivity.
Defined.

(** C7 as stated fails for [Dataset.Read]: on the same [[0]int] variable it
    derives a type and makes the raw transfer. *)
Lemma Dataset_Read_empty_array_transfers :
  ~ no_op_success (Dataset_Read RefStore 0 (mkIdentifier 7) (VPtr 0%nat)
                                w_empty_array) w_empty_array.
Proof.
  intros (w' & Hout & _ & Ht).
  vm_compute in Hout. injection Hout as <-. discriminate Ht.
Qed.

(** ** Memory lemmas *)

Lemma heap_set_same (h : Heap) (l : loc) (c : Cell) :
  (l < length h)%nat -> nth_error (heap_set h l c) l = Some c.
Proof.
  revert l. induction h as [| x h IH]; intros [| l] Hl; simpl in *; try lia.
  - reflexivity.
  - apply IH. lia.
Qed.

Lemma heap_set_other (h : Heap) (l l' : loc) (c : Cell) :
  l <> l' -> nth_error (heap_set h l c) l' = nth_error h l'.
Proof.
  revert l l'. induction h as [| x h IH]; intros [| l] [| l'] Hn; simpl;
    try reflexivity; try congruence.
  apply IH. congruence.
Qed.

(** A raw transfer leaves every slice header alone. *)
Lemma store_keeps_slice (h : Heap) (a : uintptr) (bs : list byte)
      (l : loc) (e : GoType) (hd : SliceHeader) :
  nth_error h l = Some (CSlice e hd) ->
  nth_error (store h a bs) l = Some (CSlice e hd).
Proof.
  intros H. unfold store.
  destruct a as [| l' | l']; [assumption | |];
    destruct (nth_error h l') as [[] |] eqn:Hl'; try assumption;
    (destruct (Nat.eq_dec l' l) as [-> | Hn];
     [congruence | rewrite heap_set_other by assumption; assumption]).
Qed.

(** ** strings.Trim *)

Lemma TrimLeft_cons_ne (x : byte) (s : list byte) :
  x <> x00 -> TrimLeft (x :: s) = x :: s.
Proof. intros Hx. destruct x; try reflexivity. contradiction. Qed.

Lemma TrimLeft_spec (s : list byte) :
  exists pre, s = pre ++ TrimLeft s /\ Forall (eq x00) pre /\
              hd_error (TrimLeft s) <> Some x00.
Proof.
  induction s as [| x s (pre & Hs & Hpre & Hhd)].
  - exists []. repeat split; [constructor | discriminate].
  - destruct (Byte.byte_eq_dec x x00) as [-> | Hx].
    + exists (x00 :: pre). cbn [TrimLeft]. repeat split.
      * simpl. congruence.
      * constructor; auto.
      * assumption.
    + exists []. rewrite TrimLeft_cons_ne by assumption.
      repeat split; [constructor | simpl; congruence].
Qed.

Lemma TrimLeft_id (s : list byte) :
  hd_error s <> Some x00 -> TrimLeft s = s.
Proof.
  destruct s as [| x s]; [reflexivity |]. intros H.
  apply TrimLeft_cons_ne. intros ->. apply H. reflexivity.
Qed.

Lemma TrimRight_spec (s : list byte) :
  exists post, s = TrimRight s ++ post /\ Forall (eq x00) post /\
               hd_error (rev (TrimRight s)) <> Some x00.
Proof.
  unfold TrimRight. destruct (TrimLeft_spec (rev s)) as (pre & Hs & Hpre & Hhd).
  exists (rev pre). rewrite rev_involutive. repeat split.
  - rewrite <- rev_app_distr, <- Hs. symmetry. apply rev_involutive.
  - apply Forall_rev. assumption.
  - assumption.
Qed.

(** [Trim] removes a run of NUL bytes at each end and nothing else. *)
Lemma Trim_spec (s : list byte) : trimmed s (Trim s).
Proof.
  unfold trimmed, Trim.
  destruct (TrimLeft_spec s) as (pre & Hs & Hpre & Hhd).
  destruct (TrimRight_spec (TrimLeft s)) as (post & Hr & Hpost & Hlast).
  exists pre, post. repeat split; try assumption.
  - rewrite <- Hr. assumption.
  - destruct (TrimRight (TrimLeft s)) as [| x t] eqn:Ht; [discriminate |].
    rewrite Hr in Hhd. simpl in *. assumption.
Qed.

Lemma Trim_id (s : list byte) :
  hd_error s <> Some x00 -> hd_error (rev s) <> Some x00 -> Trim s = s.
Proof.
  intros H1 H2. unfold Trim, TrimRight.
  rewrite (TrimLeft_id s H1), (TrimLeft_id (rev s) H2). apply rev_involutive.
Qed.

Lemma string_buffer_length (str : list byte) (ln : Z) :
  0 <= ln -> length (string_buffer str ln) = Z.to_nat ln.
Proof.
  intros H. unfold string_buffer.
  destruct (Z.leb_spec ln (Z.of_nat (length str))).
  - rewrite length_firstn. lia.
  - apply repeat_length.
Qed.

(** ** The steps of [Attribute.Read] *)

Section ReadSteps.

Variable E : Hdf5.

Lemma resize_spec (l : loc) (elem : GoType) (hdr : SliceHeader) (ln : Z)
      (c0 : Cell) (w : World E) :
  nth_error (heap w) l = Some c0 ->
  0 <= ln ->
  exists hdr' w',
    resize E l elem hdr ln w = Returns hdr' w' /\
    nth_error (heap w') l = Some (CSlice elem hdr') /\
    Len hdr' = ln /\
    (ln <= Cap hdr -> Data hdr' = Data hdr /\ Cap hdr' = Cap hdr) /\
    (Cap hdr < ln -> Data hdr' = AddrOf (length (heap w)) /\ Cap hdr' = ln) /\
    lib w' = lib w /\ calls w' = calls w.
Proof.
  intros Hl Hln.
  assert (Hlt : (l < length (heap w))%nat)
    by (apply nth_error_Some; congruence).
  unfold resize, bind.
  destruct (Z.leb_spec ln (Cap hdr)) as [Hle | Hgt].
  - unfold SetLen.
    replace ((ln <? 0) || (Cap hdr <? ln)) with false
      by (symmetry; apply orb_false_iff; split; apply Z.ltb_ge; lia).
    unfold ret, assign. cbn.
    do 2 eexists. split; [reflexivity |]. cbn.
    rewrite heap_set_same by assumption.
    repeat split; try reflexivity; lia.
  - unfold MakeSlice.
    destruct (Z.ltb_spec ln 0) as [Hneg | _]; [lia |].
    unfold assign, ret. cbn.
    do 2 eexists. split; [reflexivity |]. cbn.
    rewrite heap_set_same by (rewrite length_app; simpl; lia).
    repeat split; try reflexivity; lia.
Qed.

Lemma C_H5Aread_spec (a t : hid_t) (addr : uintptr) (w : World E) :
  exists rc w',
    C_H5Aread E a t addr w = Returns rc w' /\
    calls w' = calls w ++ [Call_H5Aread a t (AtAddr addr) (load (heap w) addr)] /\
    heap w' = store (heap w) addr
                    (snd (fst (H5Aread E a t (load (heap w) addr) (lib w)))).
Proof.
  unfold C_H5Aread, log.
  destruct (H5Aread E a t (load (heap w) addr) (lib w)) as [[rc out] st].
  do 2 eexists. repeat split.
Qed.

(** The buffer of the string case and where its bytes lie. *)
Lemma read_string_buffer (o : Origin) (str : list byte) (ln : Z)
      (w : World E) :
  0 <= ln ->
  (if ln <=? Z.of_nat (length str) then Slice0 E o str ln
   else ret (Repeat_NUL ln)) w =
  Returns (string_buffer_origin o str ln, string_buffer str ln) w.
Proof.
  intros Hln. unfold string_buffer_origin, string_buffer, Slice0, Repeat_NUL.
  destruct (Z.leb_spec ln (Z.of_nat (length str))) as [Hle | Hgt];
    [| reflexivity].
  replace ((ln <? 0) || (Z.of_nat (length str) <? ln)) with false
    by (symmetry; apply orb_false_iff; split; apply Z.ltb_ge; lia).
  reflexivity.
Qed.

(** The string case when the buffer passes the pointer check. *)
Lemma read_string_spec (s : Attribute) (typ : Datatype) (l : loc)
      (o : Origin) (str : list byte) (w : World E) :
  let ln := to_int (H5Aget_storage_size E (id s) (lib w)) in
  let buf := string_buffer str ln in
  let r := H5Aread E (id s) (id typ) buf (lib w) in
  0 <= ln ->
  string_buffer_origin o str ln = Outside ->
  exists w',
    calls w' = calls w ++ [Call_H5Aread (id s) (id typ) AtLocal buf] /\
    match h5err E (fst (fst r)) with
    | Some e =>
        read_string E s (Some typ) l o str w = Returns (Some e) w' /\
        heap w' = heap w
    | None =>
        read_string E s (Some typ) l o str w = Returns None w' /\
        heap w' = heap_set (heap w) l (CString Outside (Trim (snd (fst r))))
    end.
Proof.
  intros ln buf r Hln Ho.
  unfold read_string, bind, C_H5Aget_storage_size.
  change (to_int (H5Aget_storage_size E (id s) (lib w))) with ln.
  rewrite (read_string_buffer o str ln w Hln). cbn [fst snd]. rewrite Ho.
  unfold id_of, ret, C_H5Aread_local, log, assign.
  change (H5Aread E (id s) (id typ) (string_buffer str ln) (lib w)) with r.
  destruct r as [[rc out] st]. cbn [fst snd].
  destruct (h5err E rc) as [e |];
    (eexists; split; [| split; reflexivity]; reflexivity).
Qed.

(** The string case when the bytes of the buffer lie in Go memory: the
    call into C is refused. *)
Lemma read_string_refused (s : Attribute) (typ : Datatype) (l : loc)
      (o : Origin) (str : list byte) (w : World E) :
  let ln := to_int (H5Aget_storage_size E (id s) (lib w)) in
  0 <= ln ->
  string_buffer_origin o str ln = InGoMemory ->
  read_string E s (Some typ) l o str w = Panics CgoPointer w.
Proof.
  intros ln Hln Ho.
  unfold read_string, bind, C_H5Aget_storage_size.
  change (to_int (H5Aget_storage_size E (id s) (lib w))) with ln.
  rewrite (read_string_buffer o str ln w Hln). cbn [fst snd]. rewrite Ho.
  reflexivity.
Qed.

End ReadSteps.
(** ** Reading into a slice *)

(** C2, for [Attribute.Read]: when the element type of the slice is the
    native type of the attribute, the element size is not 0 and the count
    [storage size / element size] is not negative, the slice has that
    length after [Read], whatever its length was and whatever the raw
    transfer answered.  Its storage is kept when the capacity covers the
    count (same [Data], same [Cap]) and is a new variable otherwise, and
    the one raw transfer of the call is aimed at the [Data] of the resized
    slice. *)
Theorem Attribute_Read_resizes_slice
        (E : Hdf5) (fuel : nat) (s : Attribute) (l : loc)
        (elem : GoType) (hdr : SliceHeader) (w : World E) :
  nth_error (heap w) l = Some (CSlice elem hdr) ->
  disk_GoType s w = elem ->
  disk_elem_size s w <> 0 ->
  0 <= on_disk_count s w ->
  exists r w' hdr' buf,
    Attribute_Read E fuel s (VPtr l) w = Returns r w' /\
    nth_error (heap w') l = Some (CSlice elem hdr') /\
    Len hdr' = on_disk_count s w /\
    (on_disk_count s w <= Cap hdr ->
     Data hdr' = Data hdr /\ Cap hdr' = Cap hdr) /\
    (Cap hdr < on_disk_count s w ->
     Data hdr' = AddrOf (length (heap w)) /\ Cap hdr' = on_disk_count s w) /\
    transfers (calls w') =
      transfers (calls w) ++
      [Call_H5Aread (id s) (id (queried_type s w)) (AtAddr (Data hdr')) buf].
Proof.
  intros Hl Ht Hsz Hln.
  destruct (Attribute_Read_VPtr E fuel s l _ w Hl) as [recur ->].
  destruct (resize_spec E l elem hdr (on_disk_count s w) (CSlice elem hdr)
                        (after_GetType s w) Hl Hln)
    as (hdr' & w2 & Hr & Hl2 & HLen & Hreuse & Hfresh & Hlib2 & Hc2).
  destruct (C_H5Aread_spec E (id s) (id (queried_type s w)) (Data hdr') w2)
    as (rc & w3 & Hrd & Hc3 & Hh3).
  exists (h5err E rc), (after_Close (queried_type s w) w3), hdr',
         (load (heap w2) (Data hdr')).
  split.
  - apply defer_Close_Returns.
    cbn [Attribute_Read_switch]. unfold bind at 1, GoType_of.
    change (Datatype_GoType E (queried_type s w) (lib (after_GetType s w)))
      with (disk_GoType s w).
    rewrite Ht.
    destruct (GoType_eq_dec elem elem) as [_ | Hne]; [| contradiction].
    unfold bind at 1, C_H5Aget_storage_size.
    unfold bind at 1, Size_of.
    unfold bind at 1, int_div.
    change (to_int (Datatype_Size E (queried_type s w) (lib (after_GetType s w))))
      with (disk_elem_size s w).
    destruct (Z.eqb_spec (disk_elem_size s w) 0) as [H0 | _]; [contradiction |].
    unfold ret at 1. unfold bind at 1.
    change (to_int (Z.quot (to_int (H5Aget_storage_size E (id s) (lib (after_GetType s w))))
                           (disk_elem_size s w)))
      with (on_disk_count s w).
    rewrite Hr. unfold bind at 1. rewrite Hrd. reflexivity.
  - rewrite after_Close_heap, after_Close_transfers, Hh3, Hc3, Hc2.
    split; [apply store_keeps_slice; assumption |].
    split; [assumption |]. split; [assumption |]. split; [assumption |].
    rewrite transfers_app. cbn. rewrite transfers_app. cbn.
    rewrite app_nil_r. reflexivity.
Qed.

(** Five [int64] on disk, a destination of two: the slice gets five
    elements in a new variable. *)
Lemma Attribute_Read_resizes_slice_witness :
  exists r w' hdr' buf,
    Attribute_Read RefStore 0 (mkIdentifier 7) (VPtr 0%nat) w_short_slice =
      Returns r w' /\
    nth_error (heap w') 0%nat = Some (CSlice (TBasic BInt64) hdr') /\
    Len hdr' = 5 /\
    (5 <= 2 -> Data hdr' = AddrOf 1%nat /\ Cap hdr' = 2) /\
    (2 < 5 -> Data hdr' = AddrOf 2%nat /\ Cap hdr' = 5) /\
    transfers (calls w') =
      [Call_H5Aread 7 100 (AtAddr (Data hdr')) buf].
Proof.
  apply (Attribute_Read_resizes_slice RefStore 0 (mkIdentifier 7) 0%nat
           (TBasic BInt64) short_slice w_short_slice).
  - reflexivity.
  - reflexivity.
  - vm_compute. discriminate.
  - vm_compute. discriminate.
Defined.

(** C2 as stated fails for [Dataset.Read]: with five [int64] on disk (40
    bytes, 8 bytes each) the destination of length 2 keeps length 2. *)
Lemma Dataset_Read_keeps_slice_length :
  length (content (lib w_short_slice)) = 40%nat /\
  Sizeof RefStore (TBasic BInt64) = 8%nat /\
  ~ resized (Dataset_Read RefStore 0 (mkIdentifier 7) (VPtr 0%nat) w_short_slice)
            0%nat 5.
Proof.
  split; [reflexivity |]. split; [reflexivity |].
  intros (r & w' & elem & hdr & Hout & Hl & HLen).
  vm_compute in Hout. injection Hout as <- <-.
  vm_compute in Hl. injection Hl as <- <-. discriminate HLen.
Qed.

(** ** Reading into a string *)

(** C3, for [Attribute.Read]: when the attribute holds text, the
    destination has at least as many bytes as the attribute stores, and
    these bytes do not lie in Go memory, so that the pointer check lets
    the call through, the raw read is made once, with a buffer that is the
    first bytes of the destination, as many as the storage size says.  If
    the read fails its error is returned and Go memory is unchanged;
    otherwise [Read] returns nil and the destination holds what the store
    delivered with the NUL bytes at both ends removed. *)
Theorem Attribute_Read_trims_text
        (E : Hdf5) (fuel : nat) (s : Attribute) (l : loc)
        (o : Origin) (str : list byte) (w : World E) :
  nth_error (heap w) l = Some (CString o str) ->
  kind_of (disk_GoType s w) = reflect.String ->
  0 <= storage_size s w <= Z.of_nat (length str) ->
  string_buffer_origin o str (storage_size s w) = Outside ->
  length (string_buffer str (storage_size s w)) = Z.to_nat (storage_size s w) /\
  string_buffer str (storage_size s w) = firstn (Z.to_nat (storage_size s w)) str /\
  exists w',
    transfers (calls w') =
      transfers (calls w) ++
      [Call_H5Aread (id s) (id (queried_type s w)) AtLocal
                    (string_buffer str (storage_size s w))] /\
    match h5err E (fst (fst (text_read s w str))) with
    | Some e =>
        Attribute_Read E fuel s (VPtr l) w = Returns (Some e) w' /\
        heap w' = heap w
    | None =>
        Attribute_Read E fuel s (VPtr l) w = Returns None w' /\
        exists t,
          nth_error (heap w') l = Some (CString Outside t) /\
          trimmed (snd (fst (text_read s w str))) t
    end.
Proof.
  intros Hl Hk [Hln Hle] Ho.
  split; [apply string_buffer_length; assumption |].
  split.
  { unfold string_buffer.
    destruct (Z.leb_spec (storage_size s w) (Z.of_nat (length str))); [reflexivity | lia]. }
  destruct (Attribute_Read_VPtr E fuel s l _ w Hl) as [recur ->].
  destruct (read_string_spec E s (queried_type s w) l o str (after_GetType s w)
                             Hln Ho)
    as (w2 & Hc2 & Hres).
  assert (Hsw : forall r w'',
             read_string E s (Some (queried_type s w)) l o str (after_GetType s w)
               = Returns r w'' ->
             Attribute_Read_switch E recur s (queried_type s w) l (CString o str)
               (after_GetType s w) = Returns r w'').
  { intros r w'' Hrs. cbn [Attribute_Read_switch]. unfold bind at 1, GoType_of.
    change (Datatype_GoType E (queried_type s w) (lib (after_GetType s w)))
      with (disk_GoType s w).
    destruct (Kind_eq_dec (kind_of (disk_GoType s w)) reflect.String)
      as [_ | Hne]; [assumption | contradiction]. }
  exists (after_Close (queried_type s w) w2).
  rewrite after_Close_transfers, after_Close_heap, Hc2.
  split.
  { rewrite transfers_app. cbn. rewrite transfers_app. cbn.
    rewrite app_nil_r. reflexivity. }
  change (H5Aread E (id s) (id (queried_type s w))
            (string_buffer str (to_int (H5Aget_storage_size E (id s) (lib (after_GetType s w)))))
            (lib (after_GetType s w)))
    with (text_read s w str) in Hres.
  destruct (h5err E (fst (fst (text_read s w str)))) as [e |].
  - destruct Hres as [Hrs Hh]. split.
    + apply defer_Close_Returns, Hsw, Hrs.
    + assumption.
  - destruct Hres as [Hrs Hh]. split.
    + apply defer_Close_Returns, Hsw, Hrs.
    + eexists. split; [| apply Trim_spec].
      rewrite Hh. apply heap_set_same. apply nth_error_Some.
      cbn. congruence.
Qed.

(** "hello" in a fixed 8-byte text attribute, read into a destination that
    is a literal of 8 bytes. *)
Lemma Attribute_Read_trims_text_witness :
  length (string_buffer (repeat x20 8) 8) = 8%nat /\
  string_buffer (repeat x20 8) 8 = firstn 8 (repeat x20 8) /\
  exists w',
    transfers (calls w') =
      [Call_H5Aread 7 100 AtLocal (string_buffer (repeat x20 8) 8)] /\
    Attribute_Read RefStore 0 (mkIdentifier 7) (VPtr 0%nat) w_padded_text =
      Returns None w' /\
    exists t,
      nth_error (heap w') 0%nat = Some (CString Outside t) /\
      trimmed (hello ++ [x00; x00; x00]) t.
Proof.
  apply (Attribute_Read_trims_text RefStore 0 (mkIdentifier 7) 0%nat
           Outside (repeat x20 8) w_padded_text).
  - reflexivity.
  - reflexivity.
  - vm_compute. split; discriminate.
  - reflexivity.
Defined.

(** The scenario evaluated: the destination holds "hello". *)
Example Attribute_Read_hello :
  exists w',
    Attribute_Read RefStore 0 (mkIdentifier 7) (VPtr 0%nat) w_padded_text =
      Returns None w' /\
    heap w' = [CString Outside hello].
Proof. eexists. split; reflexivity. Qed.

(** C3 as stated fails for [Dataset.Read]: in the same scenario, with a
    destination built at run time, the destination ends up with the three
    NUL bytes of the record. *)
Lemma Dataset_Read_keeps_padding :
  ~ reads_trimmed (Dataset_Read RefStore 0 (mkIdentifier 7) (VPtr 0%nat)
                                w_padded_built) 0%nat.
Proof.
  intros (w' & o & t & Hout & Hl & _ & Hend).
  vm_compute in Hout. injection Hout as <-.
  vm_compute in Hl. injection Hl as <- <-.
  apply Hend. reflexivity.
Qed.

(** ** Type validation *)

(** C4, amended: [Attribute.Read] compares the element type of the
    destination with the native type of the attribute before it transfers
    anything.  When they differ and the destination is not an array of
    length 0, it fails with the error naming the attribute's type and the
    destination's; Go memory is unchanged and no raw transfer has been
    made. *)
Theorem Attribute_Read_rejects_mismatch
        (E : Hdf5) (fuel : nat) (s : Attribute) (l : loc) (c : Cell)
        (w : World E) :
  nth_error (heap w) l = Some c ->
  mismatch c (disk_GoType s w) = true ->
  empty_array c = false ->
  rejects_mismatch (Attribute_Read E fuel s (VPtr l) w) w
                   (disk_GoType s w) (elem_type c).
Proof.
  intros Hl Hm Hne.
  destruct (Attribute_Read_VPtr E fuel s l _ w Hl) as [recur ->].
  exists (after_Close (queried_type s w) (after_GetType s w)).
  rewrite after_Close_heap, after_Close_transfers.
  split; [apply defer_Close_Returns | split; [reflexivity |]].
  - destruct c as [b raw | str | elem n raw | elem hdr | elem p];
      cbn [Attribute_Read_switch mismatch empty_array elem_type] in *;
      try discriminate Hm;
      try rewrite Hne;
      unfold bind at 1, GoType_of;
      change (Datatype_GoType E (queried_type s w) (lib (after_GetType s w)))
        with (disk_GoType s w).
    + destruct (GoType_eq_dec (TBasic b) (disk_GoType s w));
        [discriminate Hm | reflexivity].
    + destruct (Kind_eq_dec (kind_of (disk_GoType s w)) reflect.String);
        [discriminate Hm | reflexivity].
    + destruct (GoType_eq_dec elem (disk_GoType s w));
        [discriminate Hm | reflexivity].
    + destruct (GoType_eq_dec elem (disk_GoType s w));
        [discriminate Hm | reflexivity].
  - cbn. rewrite transfers_app. cbn. apply app_nil_r.
Qed.

(** An [int32] destination and an attribute of [float64]. *)
Lemma Attribute_Read_rejects_mismatch_witness :
  rejects_mismatch
    (Attribute_Read RefStore 0 (mkIdentifier 7) (VPtr 0%nat) w_int32_float)
    w_int32_float (TBasic BFloat64) (TBasic BInt32).
Proof.
  apply (Attribute_Read_rejects_mismatch RefStore 0 (mkIdentifier 7) 0%nat
           (CScalar BInt32 [x00; x00; x00; x00]) w_int32_float);
    reflexivity.
Defined.

(** C4 as stated fails on an array of length 0: a [[0]int] destination and
    an attribute of [float64] differ in type, and [Read] does not fail. *)
Lemma Attribute_Read_empty_array_not_validated :
  nth_error (heap w_empty_array_float) 0%nat = Some (CArray (TBasic BInt) 0 []) /\
  mismatch (CArray (TBasic BInt) 0 [])
           (disk_GoType (mkIdentifier 7) w_empty_array_float) = true /\
  ~ rejects_mismatch
      (Attribute_Read RefStore 0 (mkIdentifier 7) (VPtr 0%nat) w_empty_array_float)
      w_empty_array_float (TBasic BFloat64) (TBasic BInt).
Proof.
  split; [reflexivity |]. split; [reflexivity |].
  intros (w' & Hout & _). vm_compute in Hout. discriminate Hout.
Qed.

(** ** The deferred Close registered before the error check *)

Section DeferredClose.

Variable E : Hdf5.

(** Leaving a function whose deferred call is [typ.Close()] with a nil
    [typ]: the error about to be returned is lost in a panic. *)
Lemma defer_Close_nil (e : option error) (w : World E) :
  defer (Datatype_Close E None) (ret e) w = Panics NilDereference w.
Proof. reflexivity. Qed.

Lemma do_NewDataTypeFromType_fails (t : GoType) (w : World E)
      (e : error) (st : LibState E) :
  NewDataTypeFromType E t (lib w) = (None, Some e, st) ->
  do_NewDataTypeFromType E t w =
  Returns (None, Some e) (mkWorld (heap w) st (calls w)).
Proof. intros H. unfold do_NewDataTypeFromType. rewrite H. reflexivity. Qed.

End DeferredClose.

(** C9: [Dataset.ReadSubset] panics with a nil dereference, instead of
    returning the error, when [NewDataTypeFromType] fails with a nil
    Datatype; [Dataset.WriteSubset] does when the type of the dataset
    cannot be opened; the variant of [Attribute.Read] that derives its type
    does on arrays, slices and scalars. *)
Theorem deferred_Close_on_nil_type_panics
        (E : Hdf5) (fuel : nat) (s : Identifier) (l : loc) (c : Cell)
        (data : Value) (memspace filespace : option Dataspace)
        (e : error) (st : LibState E) (w : World E) :
  (nth_error (heap w) l = Some c ->
   pointer_cell c = false ->
   NewDataTypeFromType E (elem_type c) (lib w) = (None, Some e, st) ->
   exists w',
     Dataset_ReadSubset E fuel s (VPtr l) memspace filespace w =
       Panics NilDereference w') /\
  (fst (H5Dget_type E (id s) (lib w)) < 0 ->
   exists w',
     Dataset_WriteSubset E s data memspace filespace w =
       Panics NilDereference w') /\
  (nth_error (heap w) l = Some c ->
   pointer_cell c = false -> string_cell c = false -> empty_array c = false ->
   NewDataTypeFromType E (elem_type c) (lib w) = (None, Some e, st) ->
   exists w',
     Attribute_Read_derived E fuel s (VPtr l) w = Panics NilDereference w').
Proof.
  split; [| split].
  - intros Hl Hp Hd.
    destruct (Dataset_ReadSubset_VPtr E fuel s l c memspace filespace w Hl)
      as [recur ->].
    destruct c; try discriminate Hp;
      cbn [Dataset_ReadSubset_switch elem_type] in *; unfold bind at 1;
      rewrite (do_NewDataTypeFromType_fails E _ w e st Hd);
      eexists; reflexivity.
  - intros Hneg. unfold Dataset_WriteSubset, bind at 1, Dataset_Datatype,
                        bind at 1, C_H5Dget_type, log.
    destruct (H5Dget_type E (id s) (lib w)) as [i st1]. cbn [fst] in Hneg.
    destruct (Z.ltb_spec i 0) as [_ | Hge]; [| lia].
    eexists. reflexivity.
  - intros Hl Hp Hs Hn Hd.
    destruct (Attribute_Read_derived_VPtr E fuel s l c w Hl) as [recur ->].
    destruct c; try discriminate Hp; try discriminate Hs;
      cbn [Attribute_Read_derived_switch elem_type empty_array] in *;
      try rewrite Hn; unfold bind at 1;
      rewrite (do_NewDataTypeFromType_fails E _ w e st Hd);
      eexists; reflexivity.
Qed.

(** A [complex128] destination, and a store that cannot open the type of
    the dataset. *)
Lemma deferred_Close_on_nil_type_panics_witness :
  (exists w',
     Dataset_ReadSubset RefStore 0 (mkIdentifier 7) (VPtr 0%nat) None None
                        w_underivable = Panics NilDereference w') /\
  (exists w',
     Dataset_WriteSubset RefStore (mkIdentifier 7) (VPtr 0%nat) None None
                         w_underivable = Panics NilDereference w') /\
  (exists w',
     Attribute_Read_derived RefStore 0 (mkIdentifier 7) (VPtr 0%nat)
                            w_underivable = Panics NilDereference w').
Proof.
  destruct (deferred_Close_on_nil_type_panics RefStore 0 (mkIdentifier 7) 0%nat
              (CScalar BComplex128 (repeat x00 16)) (VPtr 0%nat) None None
              (ErrUnsupported (TBasic BComplex128)) (lib w_underivable)
              w_underivable) as (H1 & H2 & H3).
  split; [| split].
  - apply H1; reflexivity.
  - apply H2. reflexivity.
  - apply H3; reflexivity.
Defined.

(** ** The type derived by Attribute.Write *)

(** On any store, [Attribute.Write] closes no type at all. *)
Lemma Attribute_Write_never_closes (E : Hdf5) (fuel : nat) (s : Attribute)
      (data : Value) (w : World E) :
  match Attribute_Write E fuel s data w with
  | Returns _ w' | Panics _ w' =>
      filter is_Tclose (calls w') = filter is_Tclose (calls w)
  | OutOfFuel => True
  end.
Proof.
  revert data w. induction fuel as [| fuel IH]; intros data w;
    (destruct data as [| t | l]; cbn [Attribute_Write]; try reflexivity;
     unfold bind at 1, deref;
     destruct (nth_error (heap w) l) as [c |]; [| reflexivity];
     destruct c as [b raw | o str | elem n raw | elem hdr | elem p];
     cbn [Attribute_Write_switch]; try exact I; try apply IH;
     try destruct o;
     unfold write_tail, bind, do_NewDataTypeFromType, id_of, C_H5Awrite,
            C_H5Awrite_local, log, ret, panic;
     destruct (NewDataTypeFromType E _ (lib w)) as [[[dt |] [err |]] st];
     cbn; try reflexivity;
     match goal with
     | |- context [H5Awrite E ?a ?t ?b ?x] =>
         destruct (H5Awrite E a t b x) as [rc st']
     end;
     cbn; rewrite filter_app; cbn; apply app_nil_r).
Qed.

(** C5 fails on [Attribute.Write]: writing an [int] derives the type with
    handle 100, hands it to the raw write and returns nil; the handle is
    never closed. *)
Theorem Attribute_Write_leaves_type_open :
  fst (fst (NewDataTypeFromType RefStore (TBasic BInt) (lib w_int))) =
    Some (mkIdentifier 100) /\
  exists w',
    Attribute_Write RefStore 0 (mkIdentifier 7) (VPtr 0%nat) w_int =
      Returns None w' /\
    calls w' = [Call_H5Awrite 7 100 (AtAddr (AddrOf 0%nat)) forty_two] /\
    ~ In (Call_H5Tclose 100) (calls w').
Proof.
  split; [reflexivity |].
  eexists. split; [reflexivity |]. split; [reflexivity |].
  simpl. intros [H | []]. discriminate H.
Qed.


(** The string case of the deriving variant of [Attribute.Read] returns
    before the deferred Close is registered: the derived type, handle 100,
    stays open as well. *)
Example Attribute_Read_derived_text_leaves_type_open :
  match Attribute_Read_derived RefStore 0 (mkIdentifier 7) (VPtr 0%nat)
                               w_padded_text with
  | Returns None w' =>
      calls w' = [Call_H5Aread 7 100 AtLocal (repeat x20 8)] /\
      heap w' = [CString Outside hello]
  | _ => False
  end.
Proof. vm_compute. split; reflexivity. Qed.

(** ** The paths on which the transfer is made *)

Section TransferPaths.

Variable E : Hdf5.


(** [Attribute.Read] into a scalar or a non-empty array of the attribute's
    type: one raw read at the address of the variable. *)
Lemma Attribute_Read_flat (fuel : nat) (s : Attribute) (l : loc) (c : Cell)
      (w : World E) :
  nth_error (heap w) l = Some c ->
  flat_cell c = true ->
  empty_array c = false ->
  mismatch c (disk_GoType s w) = false ->
  Attribute_Read E fuel s (VPtr l) w =
  let typ := queried_type s w in
  let buf := load (heap w) (AddrOf l) in
  let r := H5Aread E (id s) (id typ) buf (lib (after_GetType s w)) in
  Returns (h5err E (fst (fst r)))
          (after_Close typ
             (mkWorld (store (heap w) (AddrOf l) (snd (fst r))) (snd r)
                      (calls w ++ [Call_H5Aget_type (id s)] ++
                       [Call_H5Aread (id s) (id typ) (AtAddr (AddrOf l)) buf]))).
Proof.
  intros Hl Hf Hn Hm.
  destruct (Attribute_Read_VPtr E fuel s l _ w Hl) as [recur ->].
  cbv zeta. apply defer_Close_Returns.
  destruct c as [b raw | str | elem n raw | elem hdr | elem p];
    try discriminate Hf;
    cbn [Attribute_Read_switch mismatch empty_array] in *;
    try rewrite Hn;
    unfold bind at 1, GoType_of;
    change (Datatype_GoType E (queried_type s w) (lib (after_GetType s w)))
      with (disk_GoType s w);
    destruct (GoType_eq_dec _ (disk_GoType s w)); try discriminate Hm;
    unfold bind, C_H5Aread, log, ret; cbn [heap lib calls after_GetType];
    destruct (H5Aread E _ _ _ _) as [[rc out] st]; cbn [fst snd];
    rewrite <- app_assoc; reflexivity.
Qed.



(** [Dataset.WriteSubset] from a variable, when the type of the dataset can
    be opened and the resolved address passes the pointer check: one raw
    write from that address, then the type is closed. *)
Lemma Dataset_WriteSubset_opened (s : Dataset) (l : loc) (c : Cell)
      (m f : option Dataspace) (w : World E) :
  nth_error (heap w) l = Some c ->
  0 <= fst (H5Dget_type E (id s) (lib w)) ->
  holds_go_pointer (heap w) (write_address l c) = false ->
  Dataset_WriteSubset E s (VPtr l) m f w =
  let dt := newDatatype (fst (H5Dget_type E (id s) (lib w))) in
  let addr := write_address l c in
  let buf := load (heap w) addr in
  let r := H5Dwrite E (id s) (id dt) (space_id m) (space_id f) 0 buf
                    (snd (H5Dget_type E (id s) (lib w))) in
  Returns (h5err E (fst r))
          (after_Close dt
             (mkWorld (heap w) (snd r)
                      (calls w ++ [Call_H5Dget_type (id s)] ++
                       [Call_H5Dwrite (id s) (id dt) (space_id m) (space_id f)
                                      (AtAddr addr) buf]))).
Proof.
  intros Hl Hge Hck. cbv zeta.
  unfold Dataset_WriteSubset, bind at 1, Dataset_Datatype, bind at 1,
         C_H5Dget_type, log.
  destruct (H5Dget_type E (id s) (lib w)) as [i st]. cbn [fst snd] in *.
  destruct (Z.ltb_spec i 0) as [Hlt | _]; [lia |].
  unfold ret at 1. cbn [fst snd].
  apply defer_Close_Returns.
  unfold write_addr, bind, deref, id_of, C_H5Dwrite, log, ret.
  cbn [heap lib calls]. rewrite Hl. cbn [heap lib calls]. rewrite Hck.
  destruct (H5Dwrite E _ _ _ _ _ _ _) as [rc st']. cbn [fst snd].
  rewrite <- app_assoc. reflexivity.
Qed.



End TransferPaths.

(** ** Write, then Read *)








Section RoundTrip.

Variable E : Hdf5.





End RoundTrip.




(** * Further properties *)

(** ** Destinations behind several pointers *)

Section PointerChains.

Variable E : Hdf5.

Lemma defer_Close_finish {A} (typ : Datatype) (body : M E A) (w : World E) :
  defer (Datatype_Close E (Some typ)) body w = finish typ (body w).
Proof.
  destruct (body w) as [a w' | p w' |] eqn:Hb; unfold finish.
  - apply defer_Close_Returns. assumption.
  - apply defer_Close_Panics. assumption.
  - unfold defer. rewrite Hb. reflexivity.
Qed.

Lemma follow_step (h : Heap) (n : nat) (l l' : loc) :
  follow h (S n) l = Some l' ->
  exists elem l1, nth_error h l = Some (CPtr elem (Some l1)) /\
                  follow h n l1 = Some l'.
Proof.
  cbn [follow]. destruct (nth_error h l) as [[| | | | elem [l1 |]] |];
    try discriminate. intros H. exists elem, l1. split; [reflexivity | exact H].
Qed.

Lemma after_GetTypes_heap (n : nat) (s : Attribute) (w : World E) :
  heap (after_GetTypes n s w) = heap w.
Proof.
  revert w. induction n as [| n IH]; intros w; [reflexivity |].
  cbn [after_GetTypes]. rewrite IH. reflexivity.
Qed.

(** One level of [Attribute.Read]. *)
Lemma Attribute_Read_pointer (fuel : nat) (s : Attribute) (l l1 : loc)
      (elem : GoType) (w : World E) :
  nth_error (heap w) l = Some (CPtr elem (Some l1)) ->
  Attribute_Read E (S fuel) s (VPtr l) w =
  finish (queried_type s w)
         (Attribute_Read E fuel s (VPtr l1) (after_GetType s w)).
Proof.
  intros Hl. rewrite <- defer_Close_finish.
  cbn [Attribute_Read].
  unfold bind at 1, Attribute_GetType, bind at 1, C_H5Aget_type,
         queried_type, after_GetType, log, ret.
  destruct (H5Aget_type E (id s) (lib w)) as [t st]. cbn [fst snd].
  unfold defer, bind at 1, deref. cbn [heap]. rewrite Hl. reflexivity.
Qed.

Lemma Attribute_Read_chain (fuel n : nat) (s : Attribute) (l l' : loc)
      (w : World E) :
  follow (heap w) n l = Some l' ->
  Attribute_Read E (n + fuel) s (VPtr l) w =
  closing n s w (Attribute_Read E fuel s (VPtr l') (after_GetTypes n s w)).
Proof.
  revert l w. induction n as [| n IH]; intros l w Hf.
  - cbn in Hf. injection Hf as ->. reflexivity.
  - destruct (follow_step _ _ _ _ Hf) as (elem & l1 & Hl & Hf1).
    cbn [Nat.add closing after_GetTypes].
    rewrite (Attribute_Read_pointer _ s l l1 elem w Hl).
    rewrite (IH l1 (after_GetType s w) Hf1). reflexivity.
Qed.

Lemma finish_result {A} (typ : Datatype) (out : Outcome E A) :
  result_of (finish typ out) = result_of out.
Proof. destruct out; reflexivity. Qed.

Lemma closing_result {A} (n : nat) (s : Attribute) (w : World E)
      (out : Outcome E A) :
  result_of (closing n s w out) = result_of out.
Proof.
  revert w. induction n as [| n IH]; intros w; [reflexivity |].
  cbn [closing]. rewrite finish_result. apply IH.
Qed.

Lemma closing_world {A} (n : nat) (s : Attribute) (w : World E)
      (out : Outcome E A) (w1 : World E) :
  final_world out = Some w1 ->
  exists w2, final_world (closing n s w out) = Some w2 /\
             heap w2 = heap w1 /\
             transfers (calls w2) = transfers (calls w1).
Proof.
  revert w. induction n as [| n IH]; intros w Hw.
  - exists w1. repeat split. assumption.
  - destruct (IH (after_GetType s w) Hw) as (w2 & Hf & Hh & Ht).
    cbn [closing].
    destruct (closing n s (after_GetType s w) out) as [a w' | p w' |];
      try discriminate Hf; injection Hf as ->;
      (eexists; split; [reflexivity |]);
      rewrite after_Close_heap, after_Close_transfers; split; assumption.
Qed.

End PointerChains.

(** X1: a destination reached through [n] non-nil pointers is read by
    [Attribute.Read] as the innermost pointer is: same returned error or
    panic, same Go memory, same raw transfers.  Each level queries the
    type of the attribute once more before the innermost call runs, and
    [n] units of fuel pay for the [n] levels. *)
Theorem Attribute_Read_through_pointers
        (E : Hdf5) (fuel n : nat) (s : Attribute) (l l' : loc) (w : World E) :
  follow (heap w) n l = Some l' ->
  result_of (Attribute_Read E (n + fuel) s (VPtr l) w) =
    result_of (Attribute_Read E fuel s (VPtr l') (after_GetTypes n s w)) /\
  forall w1,
    final_world (Attribute_Read E fuel s (VPtr l') (after_GetTypes n s w))
      = Some w1 ->
    exists w2,
      final_world (Attribute_Read E (n + fuel) s (VPtr l) w) = Some w2 /\
      heap w2 = heap w1 /\
      transfers (calls w2) = transfers (calls w1).
Proof.
  intros Hf. rewrite (Attribute_Read_chain E fuel n s l l' w Hf). split.
  - apply closing_result.
  - intros w1 Hw1. apply closing_world. assumption.
Qed.

(** A [*int] behind one more pointer, read from an attribute holding 42. *)
Lemma Attribute_Read_through_pointers_witness :
  result_of (Attribute_Read RefStore 1 (mkIdentifier 7) (VPtr 0%nat) w_pointer) =
    result_of (Attribute_Read RefStore 0 (mkIdentifier 7) (VPtr 1%nat)
                              (after_GetTypes 1 (mkIdentifier 7) w_pointer)) /\
  forall w1,
    final_world (Attribute_Read RefStore 0 (mkIdentifier 7) (VPtr 1%nat)
                                (after_GetTypes 1 (mkIdentifier 7) w_pointer))
      = Some w1 ->
    exists w2,
      final_world (Attribute_Read RefStore 1 (mkIdentifier 7) (VPtr 0%nat)
                                  w_pointer) = Some w2 /\
      heap w2 = heap w1 /\
      transfers (calls w2) = transfers (calls w1).
Proof.
  apply (Attribute_Read_through_pointers RefStore 0 1 (mkIdentifier 7)
           0%nat 1%nat w_pointer).
  reflexivity.
Defined.

(** The same destination, evaluated: 42 arrives in the [int]. *)
Example Attribute_Read_pointer_to_pointer :
  match Attribute_Read RefStore 1 (mkIdentifier 7) (VPtr 0%nat) w_pointer with
  | Returns None w' =>
      heap w' = [CPtr (TBasic BInt) (Some 1%nat); CScalar BInt forty_two]
  | _ => False
  end.
Proof. vm_compute. reflexivity. Qed.

Lemma recursion_chain
      (E : Hdf5) (fuel n : nat) (s : Identifier) (l l' : loc)
      (memspace filespace : option Dataspace) (w : World E) :
  follow (heap w) n l = Some l' ->
  Dataset_ReadSubset E (n + fuel) s (VPtr l) memspace filespace w =
    Dataset_ReadSubset E fuel s (VPtr l') memspace filespace w /\
  Attribute_Write E (n + fuel) s (VPtr l) w =
    Attribute_Write E fuel s (VPtr l') w /\
  Attribute_Read_derived E (n + fuel) s (VPtr l) w =
    Attribute_Read_derived E fuel s (VPtr l') w.
Proof.
  revert l. induction n as [| n IH]; intros l Hf.
  - cbn in Hf. injection Hf as ->. repeat split.
  - destruct (follow_step _ _ _ _ Hf) as (elem & l1 & Hl & Hf1).
    destruct (IH l1 Hf1) as (H1 & H2 & H3).
    cbn [Nat.add]. repeat split.
    + rewrite <- H1. cbn [Dataset_ReadSubset].
      unfold bind at 1, deref. rewrite Hl. reflexivity.
    + rewrite <- H2. cbn [Attribute_Write].
      unfold bind at 1, deref. rewrite Hl. reflexivity.
    + rewrite <- H3. cbn [Attribute_Read_derived].
      unfold bind at 1, deref. rewrite Hl. reflexivity.
Qed.

(** X2: [Dataset.ReadSubset], [Attribute.Write] and the deriving variant of
    [Attribute.Read] do nothing but recurse on a pointer variable: on a
    destination reached through [n] non-nil pointers they are the call on
    the innermost pointer. *)
Theorem recursion_follows_pointers
        (E : Hdf5) (fuel n : nat) (s : Identifier) (l l' : loc)
        (memspace filespace : option Dataspace) (w : World E) :
  follow (heap w) n l = Some l' ->
  Dataset_ReadSubset E (n + fuel) s (VPtr l) memspace filespace w =
    Dataset_ReadSubset E fuel s (VPtr l') memspace filespace w /\
  Attribute_Write E (n + fuel) s (VPtr l) w =
    Attribute_Write E fuel s (VPtr l') w /\
  Attribute_Read_derived E (n + fuel) s (VPtr l) w =
    Attribute_Read_derived E fuel s (VPtr l') w.
Proof. apply recursion_chain. Qed.

Lemma recursion_follows_pointers_witness :
  Dataset_ReadSubset RefStore 1 (mkIdentifier 7) (VPtr 0%nat) None None w_pointer =
    Dataset_ReadSubset RefStore 0 (mkIdentifier 7) (VPtr 1%nat) None None w_pointer /\
  Attribute_Write RefStore 1 (mkIdentifier 7) (VPtr 0%nat) w_pointer =
    Attribute_Write RefStore 0 (mkIdentifier 7) (VPtr 1%nat) w_pointer /\
  Attribute_Read_derived RefStore 1 (mkIdentifier 7) (VPtr 0%nat) w_pointer =
    Attribute_Read_derived RefStore 0 (mkIdentifier 7) (VPtr 1%nat) w_pointer.
Proof.
  apply (recursion_follows_pointers RefStore 0 1 (mkIdentifier 7) 0%nat 1%nat
           None None w_pointer).
  reflexivity.
Defined.

(** What the four functions do on a pointer to a nil pointer. *)
Lemma pointer_to_nil (E : Hdf5) (fuel : nat) (s : Identifier) (l : loc)
      (elem : GoType) (memspace filespace : option Dataspace) (w : World E) :
  nth_error (heap w) l = Some (CPtr elem None) ->
  Dataset_ReadSubset E (S fuel) s (VPtr l) memspace filespace w =
    Returns (Some (ErrReadNonPointer reflect.Ptr)) w /\
  Attribute_Write E (S fuel) s (VPtr l) w =
    Returns (Some (ErrWriteNonPointer (TPtr elem))) w /\
  Attribute_Read_derived E (S fuel) s (VPtr l) w =
    Returns (Some (ErrReadNonPointer reflect.Ptr)) w /\
  Attribute_Read E (S fuel) s (VPtr l) w =
    Returns (Some (ErrReadNonPointer reflect.Ptr))
            (after_Close (queried_type s w) (after_GetType s w)).
Proof.
  intros Hl. repeat split.
  - cbn [Dataset_ReadSubset]. unfold bind at 1, deref. rewrite Hl.
    destruct fuel; reflexivity.
  - cbn [Attribute_Write]. unfold bind at 1, deref. rewrite Hl.
    destruct fuel; reflexivity.
  - cbn [Attribute_Read_derived]. unfold bind at 1, deref. rewrite Hl.
    destruct fuel; reflexivity.
  - destruct (Attribute_Read_VPtr E (S fuel) s l _ w Hl) as [recur Hrd].
    cbn [Attribute_Read].
    unfold bind at 1, Attribute_GetType, bind at 1, C_H5Aget_type, log, ret.
    unfold queried_type, after_GetType.
    destruct (H5Aget_type E (id s) (lib w)) as [t st]. cbn [fst snd].
    apply defer_Close_Returns.
    unfold bind at 1, deref. cbn [heap]. rewrite Hl.
    destruct fuel; reflexivity.
Qed.

(** X3: a nil pointer behind [n] non-nil pointers is rejected like a nil
    pointer passed directly: the three reading functions return the
    non-pointer error for the kind [ptr], [Attribute.Write] returns its
    non-pointer error naming the pointer's type, and nothing is written to
    Go memory or transferred. *)
Theorem nil_pointer_behind_pointers
        (E : Hdf5) (fuel n : nat) (s : Identifier) (l l' : loc)
        (elem : GoType) (memspace filespace : option Dataspace)
        (w : World E) :
  follow (heap w) n l = Some l' ->
  nth_error (heap w) l' = Some (CPtr elem None) ->
  Dataset_ReadSubset E (n + S fuel) s (VPtr l) memspace filespace w =
    Returns (Some (ErrReadNonPointer reflect.Ptr)) w /\
  Attribute_Write E (n + S fuel) s (VPtr l) w =
    Returns (Some (ErrWriteNonPointer (TPtr elem))) w /\
  Attribute_Read_derived E (n + S fuel) s (VPtr l) w =
    Returns (Some (ErrReadNonPointer reflect.Ptr)) w /\
  exists w',
    Attribute_Read E (n + S fuel) s (VPtr l) w =
      Returns (Some (ErrReadNonPointer reflect.Ptr)) w' /\
    heap w' = heap w /\
    transfers (calls w') = transfers (calls w).
Proof.
  intros Hf Hl.
  destruct (recursion_chain E (S fuel) n s l l' memspace filespace w Hf)
    as (H1 & H2 & H3).
  destruct (pointer_to_nil E fuel s l' elem memspace filespace w Hl)
    as (N1 & N2 & N3 & _).
  rewrite H1, H2, H3. repeat split; try assumption.
  rewrite (Attribute_Read_chain E (S fuel) n s l l' w Hf).
  assert (Hl' : nth_error (heap (after_GetTypes n s w)) l' = Some (CPtr elem None))
    by (rewrite after_GetTypes_heap; assumption).
  destruct (pointer_to_nil E fuel s l' elem memspace filespace
                           (after_GetTypes n s w) Hl') as (_ & _ & _ & N4).
  rewrite N4.
  destruct (closing_world E n s w
              (Returns (Some (ErrReadNonPointer reflect.Ptr))
                 (after_Close (queried_type s (after_GetTypes n s w))
                    (after_GetType s (after_GetTypes n s w))))
              _ eq_refl) as (w2 & Hfw & Hh & Ht).
  pose proof (closing_result E n s w
              (Returns (Some (ErrReadNonPointer reflect.Ptr))
                 (after_Close (queried_type s (after_GetTypes n s w))
                    (after_GetType s (after_GetTypes n s w))))) as Hres.
  destruct (closing n s w _) as [r w3 | p w3 |] eqn:Hc;
    try discriminate Hfw; try discriminate Hres.
  cbn in Hres, Hfw. injection Hres as ->. injection Hfw as ->.
  exists w2. split; [reflexivity |].
  rewrite Hh, Ht, after_Close_heap, after_Close_transfers.
  cbn. rewrite after_GetTypes_heap, transfers_app. cbn.
  rewrite app_nil_r.
  split; [reflexivity |].
  clear. revert w. induction n as [| n IH]; intros w; [reflexivity |].
  cbn [after_GetTypes]. rewrite IH. cbn. rewrite transfers_app. cbn.
  apply app_nil_r.
Qed.

(** A [**int] whose [*int] is nil. *)
Lemma nil_pointer_behind_pointers_witness :
  Dataset_ReadSubset RefStore 2 (mkIdentifier 7) (VPtr 1%nat) None None
                     w_nil_pointer =
    Returns (Some (ErrReadNonPointer reflect.Ptr)) w_nil_pointer /\
  Attribute_Write RefStore 2 (mkIdentifier 7) (VPtr 1%nat) w_nil_pointer =
    Returns (Some (ErrWriteNonPointer (TPtr (TBasic BInt)))) w_nil_pointer /\
  Attribute_Read_derived RefStore 2 (mkIdentifier 7) (VPtr 1%nat)
                         w_nil_pointer =
    Returns (Some (ErrReadNonPointer reflect.Ptr)) w_nil_pointer /\
  exists w',
    Attribute_Read RefStore 2 (mkIdentifier 7) (VPtr 1%nat) w_nil_pointer =
      Returns (Some (ErrReadNonPointer reflect.Ptr)) w' /\
    heap w' = heap w_nil_pointer /\
    transfers (calls w') = transfers (calls w_nil_pointer).
Proof.
  apply (nil_pointer_behind_pointers RefStore 0 1 (mkIdentifier 7)
           1%nat 0%nat (TBasic BInt) None None w_nil_pointer);
    reflexivity.
Defined.

(** ** Arguments that are not pointers, on the writing side *)

(** X5: [Dataset.WriteSubset] has no check of its argument: given anything
    but a non-nil pointer it queries the type of the dataset, panics in
    [reflect] when it resolves the address, and the deferred Close closes
    the type; no raw write is made and Go memory is untouched. *)
Theorem Dataset_WriteSubset_panics_on_non_pointers
        (E : Hdf5) (s : Dataset) (data : Value)
        (memspace filespace : option Dataspace) (w : World E) :
  is_reference data = false ->
  0 < fst (H5Dget_type E (id s) (lib w)) ->
  exists p w',
    Dataset_WriteSubset E s data memspace filespace w = Panics p w' /\
    (p = ReflectZeroValue \/ p = ReflectUnaddressable) /\
    heap w' = heap w /\
    calls w' = calls w ++ [Call_H5Dget_type (id s);
                           Call_H5Tclose (fst (H5Dget_type E (id s) (lib w)))].
Proof.
  intros Hd Hpos.
  unfold Dataset_WriteSubset, bind at 1, Dataset_Datatype, bind at 1,
         C_H5Dget_type, log.
  destruct (H5Dget_type E (id s) (lib w)) as [i st]. cbn [fst snd] in *.
  destruct (Z.ltb_spec i 0) as [Hlt | _]; [lia |].
  unfold ret at 1. cbn [fst snd].
  assert (Hb : exists p,
             (p = ReflectZeroValue \/ p = ReflectUnaddressable) /\
             forall w0 : World E,
               bind (write_addr E data)
                    (fun addr =>
                       bind (id_of E (Some (newDatatype i)))
                            (fun t =>
                               bind (C_H5Dwrite E (id s) t (space_id memspace)
                                                (space_id filespace) addr)
                                    (fun rc => ret (h5err E rc)))) w0
               = Panics p w0).
  { destruct data as [| t | l]; [| | discriminate Hd].
    - exists ReflectZeroValue. split; [left; reflexivity | reflexivity].
    - destruct t; [exists ReflectUnaddressable | exists ReflectUnaddressable
                   | exists ReflectUnaddressable | exists ReflectUnaddressable
                   | exists ReflectZeroValue];
        (split; [tauto | reflexivity]). }
  destruct Hb as (p & Hp & Hb).
  exists p. eexists. split.
  - apply defer_Close_Panics. apply Hb.
  - split; [assumption |]. rewrite after_Close_heap. split; [reflexivity |].
    rewrite after_Close_calls by (cbn; lia). cbn.
    rewrite <- app_assoc. reflexivity.
Qed.

(** An [int] passed by value to a dataset whose type has handle 100. *)
Lemma Dataset_WriteSubset_panics_on_non_pointers_witness :
  exists p w',
    Dataset_WriteSubset RefStore (mkIdentifier 7) (VVal (TBasic BInt))
                        None None w_no_variable = Panics p w' /\
    (p = ReflectZeroValue \/ p = ReflectUnaddressable) /\
    heap w' = heap w_no_variable /\
    calls w' = [Call_H5Dget_type 7; Call_H5Tclose 100].
Proof.
  apply (Dataset_WriteSubset_panics_on_non_pointers RefStore (mkIdentifier 7)
           (VVal (TBasic BInt)) None None w_no_variable);
    reflexivity.
Defined.

(** ** The Dataset paths *)



(** X7: [Dataset.WriteSubset] does not recurse on a pointer variable, it
    passes the pointer it holds: for a pointer to a pointer to a scalar or
    an array it is the call on the inner pointer, and for a pointer to a
    nil pointer it hands the null address, with no bytes, to the raw write
    instead of failing. *)
Theorem Dataset_WriteSubset_passes_inner_pointer
        (E : Hdf5) (s : Dataset) (l : loc) (elem : GoType) (p : option loc)
        (memspace filespace : option Dataspace) (w : World E) :
  nth_error (heap w) l = Some (CPtr elem p) ->
  0 < dataset_type s w ->
  match p with
  | Some l1 =>
      forall c1,
        nth_error (heap w) l1 = Some c1 -> flat_cell c1 = true ->
        Dataset_WriteSubset E s (VPtr l) memspace filespace w =
        Dataset_WriteSubset E s (VPtr l1) memspace filespace w
  | None =>
      exists r w',
        Dataset_WriteSubset E s (VPtr l) memspace filespace w = Returns r w' /\
        transfers (calls w') =
          transfers (calls w) ++
          [Call_H5Dwrite (id s) (dataset_type s w) (space_id memspace)
                         (space_id filespace) (AtAddr Null) []]
  end.
Proof.
  intros Hl Hpos.
  assert (Hge : 0 <= fst (H5Dget_type E (id s) (lib w)))
    by (unfold dataset_type in Hpos; lia).
  destruct p as [l1 |].
  - intros c1 Hl1 Hf.
    assert (Hck : holds_go_pointer (heap w) (AddrOf l1) = false).
    { unfold holds_go_pointer. rewrite Hl1.
      destruct c1; try discriminate Hf; reflexivity. }
    rewrite (Dataset_WriteSubset_opened E s l _ memspace filespace w Hl Hge Hck).
    replace (AddrOf l1) with (write_address l1 c1) in Hck
      by (destruct c1; try discriminate Hf; reflexivity).
    rewrite (Dataset_WriteSubset_opened E s l1 c1 memspace filespace w Hl1 Hge
               Hck).
    replace (write_address l1 c1) with (AddrOf l1)
      by (destruct c1; try discriminate Hf; reflexivity).
    reflexivity.
  - rewrite (Dataset_WriteSubset_opened E s l _ memspace filespace w Hl Hge
               eq_refl).
    cbv zeta. do 2 eexists. split; [reflexivity |].
    rewrite after_Close_transfers. cbn [calls].
    rewrite !transfers_app. cbn. reflexivity.
Qed.

Lemma Dataset_WriteSubset_passes_inner_pointer_witness :
  (forall c1,
      nth_error (heap w_pointer) 1%nat = Some c1 -> flat_cell c1 = true ->
      Dataset_WriteSubset RefStore (mkIdentifier 7) (VPtr 0%nat) None None
                          w_pointer =
      Dataset_WriteSubset RefStore (mkIdentifier 7) (VPtr 1%nat) None None
                          w_pointer) /\
  (exists r w',
      Dataset_WriteSubset RefStore (mkIdentifier 7) (VPtr 0%nat) None None
                          w_nil_pointer = Returns r w' /\
      transfers (calls w') = [Call_H5Dwrite 7 100 0 0 (AtAddr Null) []]).
Proof.
  split.
  - apply (Dataset_WriteSubset_passes_inner_pointer RefStore (mkIdentifier 7)
             0%nat (TBasic BInt) (Some 1%nat) None None w_pointer);
      reflexivity.
  - apply (Dataset_WriteSubset_passes_inner_pointer RefStore (mkIdentifier 7)
             0%nat (TBasic BInt) None None None w_nil_pointer);
      reflexivity.
Defined.

Section DatasetRead.

Variable E : Hdf5.

(** [ReadSubset] with a type in hand: the error from the derivation is
    returned if there is one, else the transfer is made; the type is
    closed either way. *)
Lemma read_tail_typed (s : Dataset) (dt : Datatype) (err : option error)
      (addr : uintptr) (m f : option Dataspace) (w : World E) :
  read_tail E s (Some dt) err addr m f w =
  match err with
  | Some e => Returns (Some e) (after_Close dt w)
  | None =>
      let buf := load (heap w) addr in
      let r := H5Dread E (id s) (id dt) (space_id m) (space_id f) 0 buf (lib w) in
      Returns (h5err E (fst (fst r)))
              (after_Close dt
                 (mkWorld (store (heap w) addr (snd (fst r))) (snd r)
                          (calls w ++
                           [Call_H5Dread (id s) (id dt) (space_id m) (space_id f)
                                         (AtAddr addr) buf])))
  end.
Proof.
  unfold read_tail. destruct err as [e |].
  - apply defer_Close_Returns. reflexivity.
  - cbv zeta. apply defer_Close_Returns.
    unfold bind, id_of, ret, C_H5Dread, log.
    destruct (H5Dread E _ _ _ _ _ _ _) as [[rc out] st]. reflexivity.
Qed.

(** Whatever [ReadSubset] does after its switch, Go memory is as before or
    holds, in place, bytes stored at the resolved address. *)
Lemma read_tail_frame (s : Dataset) (typ : option Datatype)
      (err : option error) (addr : uintptr) (m f : option Dataspace)
      (w : World E) :
  exists w',
    final_world (read_tail E s typ err addr m f w) = Some w' /\
    (heap w' = heap w \/ exists out, heap w' = store (heap w) addr out).
Proof.
  destruct typ as [dt |].
  - rewrite read_tail_typed. destruct err as [e |]; cbv zeta;
      (eexists; split; [reflexivity |]); rewrite after_Close_heap.
    + left. reflexivity.
    + right. eexists. reflexivity.
  - unfold read_tail, defer. destruct err as [e |].
    + exists w. split; [reflexivity | left; reflexivity].
    + exists w. split; [reflexivity | left; reflexivity].
Qed.

Lemma ReadSubset_frame (fuel : nat) (s : Dataset) (l : loc) (c : Cell)
      (m f : option Dataspace) (w : World E) :
  nth_error (heap w) l = Some c ->
  pointer_cell c = false ->
  exists w',
    final_world (Dataset_ReadSubset E fuel s (VPtr l) m f w) = Some w' /\
    (heap w' = heap w \/
     exists out, heap w' = store (heap w) (read_address l c) out).
Proof.
  intros Hl Hp.
  destruct (Dataset_ReadSubset_VPtr E fuel s l c m f w Hl) as [recur ->].
  destruct c; try discriminate Hp;
    cbn [Dataset_ReadSubset_switch read_address];
    unfold bind at 1, do_NewDataTypeFromType;
    destruct (NewDataTypeFromType E _ (lib w)) as [[typ err] st];
    cbn [fst snd];
    match goal with
    | |- context [read_tail E s typ err ?a m f ?w0] =>
        destruct (read_tail_frame s typ err a m f w0) as (w' & Hf & Hh)
    end;
    exists w'; (split; [exact Hf | exact Hh]).
Qed.

End DatasetRead.

Lemma overwrite_length (old new : list byte) :
  length (overwrite old new) = length old.
Proof.
  unfold overwrite. rewrite length_firstn, length_app, length_skipn. lia.
Qed.

Lemma store_keeps_string_length (h : Heap) (a : uintptr) (bs : list byte)
      (l : loc) (o : Origin) (str : list byte) :
  nth_error h l = Some (CString o str) ->
  exists str', nth_error (store h a bs) l = Some (CString o str') /\
               length str' = length str.
Proof.
  intros H.
  assert (Hlt : (l < length h)%nat) by (apply nth_error_Some; congruence).
  unfold store.
  destruct a as [| l' | l']; [exists str; split; [assumption | reflexivity] | |];
    destruct (nth_error h l') as [[] |] eqn:Hl';
    try (exists str; split; [assumption | reflexivity]);
    (destruct (Nat.eq_dec l' l) as [-> | Hn];
     [ try congruence
     | rewrite heap_set_other by assumption;
       exists str; split; [assumption | reflexivity] ]).
  rewrite H in Hl'. injection Hl' as <- <-.
  eexists. split; [apply heap_set_same; assumption | apply overwrite_length].
Qed.

(** X8: on every store and however it ends, [Dataset.ReadSubset] leaves a
    slice destination with the header it had (same storage, same length,
    same capacity) and a text destination with the length it had: it never
    resizes its destination. *)
Theorem Dataset_ReadSubset_never_resizes
        (E : Hdf5) (fuel : nat) (s : Dataset) (l : loc)
        (memspace filespace : option Dataspace) (w : World E) :
  (forall elem hdr,
      nth_error (heap w) l = Some (CSlice elem hdr) ->
      exists w',
        final_world (Dataset_ReadSubset E fuel s (VPtr l) memspace filespace w)
          = Some w' /\
        nth_error (heap w') l = Some (CSlice elem hdr)) /\
  (forall o str,
      nth_error (heap w) l = Some (CString o str) ->
      exists w' str',
        final_world (Dataset_ReadSubset E fuel s (VPtr l) memspace filespace w)
          = Some w' /\
        nth_error (heap w') l = Some (CString o str') /\
        length str' = length str).
Proof.
  split.
  - intros elem hdr Hl.
    destruct (ReadSubset_frame E fuel s l _ memspace filespace w Hl eq_refl)
      as (w' & Hf & [Hh | [out Hh]]); exists w'; (split; [assumption |]);
      rewrite Hh; [assumption | apply store_keeps_slice; assumption].
  - intros o str Hl.
    destruct (ReadSubset_frame E fuel s l _ memspace filespace w Hl eq_refl)
      as (w' & Hf & [Hh | [out Hh]]).
    + exists w', str. rewrite Hh. repeat split; assumption.
    + destruct (store_keeps_string_length (heap w) (StringData l) out l o str Hl)
        as (str' & Hs & Hlen).
      exists w', str'. rewrite Hh. repeat split; assumption.
Qed.

(** Five [int64] on disk, a slice of length and capacity 2: after
    [Dataset.Read] the slice is as it was. *)
Lemma Dataset_ReadSubset_never_resizes_witness :
  exists w',
    final_world (Dataset_ReadSubset RefStore 0 (mkIdentifier 7) (VPtr 0%nat)
                                    None None w_short_slice) = Some w' /\
    nth_error (heap w') 0%nat = Some (CSlice (TBasic BInt64) short_slice).
Proof.
  apply (proj1 (Dataset_ReadSubset_never_resizes RefStore 0 (mkIdentifier 7)
                  0%nat None None w_short_slice)
               (TBasic BInt64) short_slice).
  reflexivity.
Defined.

(** X9: [Dataset.ReadSubset], once a type has been derived for the elements
    of the destination, closes that type before it returns, on both paths:
    if the derivation also reported an error, that error is returned and
    nothing is transferred; otherwise one raw read is made with the derived
    type at the resolved address, with handle 0 for a nil memory or file
    space, and what [h5err] makes of its status is returned. *)
Theorem Dataset_ReadSubset_closes_derived_type
        (E : Hdf5) (fuel : nat) (s : Dataset) (l : loc) (c : Cell)
        (memspace filespace : option Dataspace) (w : World E)
        (dt : Datatype) (err : option error) (st : LibState E) :
  nth_error (heap w) l = Some c ->
  pointer_cell c = false ->
  NewDataTypeFromType E (elem_type c) (lib w) = (Some dt, err, st) ->
  id dt <> 0 ->
  exists w',
    match err with
    | Some e =>
        Dataset_ReadSubset E fuel s (VPtr l) memspace filespace w =
          Returns (Some e) w' /\
        heap w' = heap w /\
        calls w' = calls w ++ [Call_H5Tclose (id dt)]
    | None =>
        Dataset_ReadSubset E fuel s (VPtr l) memspace filespace w =
          Returns (h5err E (fst (fst (dataset_read s dt memspace filespace
                                                   (heap w) l c st)))) w' /\
        heap w' =
          store (heap w) (read_address l c)
                (snd (fst (dataset_read s dt memspace filespace (heap w) l c st))) /\
        calls w' =
          calls w ++
          [Call_H5Dread (id s) (id dt) (space_id memspace) (space_id filespace)
                        (AtAddr (read_address l c))
                        (load (heap w) (read_address l c));
           Call_H5Tclose (id dt)]
    end.
Proof.
  intros Hl Hp Hd Hn.
  destruct (Dataset_ReadSubset_VPtr E fuel s l c memspace filespace w Hl)
    as [recur ->].
  assert (Hsw : Dataset_ReadSubset_switch E recur s l c memspace filespace w =
                read_tail E s (Some dt) err (read_address l c) memspace filespace
                          (mkWorld (heap w) st (calls w))).
  { destruct c; try discriminate Hp;
      cbn [Dataset_ReadSubset_switch elem_type read_address] in *;
      unfold bind at 1, do_NewDataTypeFromType; rewrite Hd; reflexivity. }
  rewrite Hsw, read_tail_typed.
  destruct err as [e |]; cbv zeta; eexists;
    (split; [reflexivity |]);
    rewrite after_Close_heap, after_Close_calls by assumption;
    cbn [heap calls]; (split; [reflexivity |]).
  - reflexivity.
  - rewrite <- app_assoc. reflexivity.
Qed.

(** A [[]int64] of length 2 read from a dataset: the derived type has
    handle 100. *)
Lemma Dataset_ReadSubset_closes_derived_type_witness :
  exists w',
    Dataset_ReadSubset RefStore 0 (mkIdentifier 7) (VPtr 0%nat) None None
                       w_short_slice = Returns None w' /\
    heap w' = [CSlice (TBasic BInt64) short_slice;
               CArray (TBasic BInt64) 2 (repeat x01 16)] /\
    calls w' =
      [Call_H5Dread 7 100 0 0 (AtAddr (AddrOf 1%nat)) (repeat x00 16);
       Call_H5Tclose 100].
Proof.
  apply (Dataset_ReadSubset_closes_derived_type RefStore 0 (mkIdentifier 7)
           0%nat (CSlice (TBasic BInt64) short_slice) None None w_short_slice
           (mkIdentifier 100) None
           (snd (new_type (TBasic BInt64) (lib w_short_slice))));
    try reflexivity.
  discriminate.
Defined.

(** ** More on Attribute.Read *)

(** X10: [Attribute.Read] into a scalar, or into an array that is not
    empty, whose type is the native type of the attribute: it queries the
    type, makes one raw read with it at the address of the variable,
    closes the type and returns what [h5err] makes of the status; the bytes
    the store delivered are stored in the variable. *)
Theorem Attribute_Read_transfers_in_place
        (E : Hdf5) (fuel : nat) (s : Attribute) (l : loc) (c : Cell)
        (w : World E) :
  nth_error (heap w) l = Some c ->
  flat_cell c = true ->
  empty_array c = false ->
  mismatch c (disk_GoType s w) = false ->
  id (queried_type s w) <> 0 ->
  exists w',
    Attribute_Read E fuel s (VPtr l) w =
      Returns (h5err E (fst (fst (attribute_read s w l)))) w' /\
    heap w' = store (heap w) (AddrOf l) (snd (fst (attribute_read s w l))) /\
    calls w' =
      calls w ++
      [Call_H5Aget_type (id s);
       Call_H5Aread (id s) (id (queried_type s w)) (AtAddr (AddrOf l))
                    (load (heap w) (AddrOf l));
       Call_H5Tclose (id (queried_type s w))].
Proof.
  intros Hl Hf Hn Hm Hid.
  rewrite (Attribute_Read_flat E fuel s l c w Hl Hf Hn Hm). cbv zeta.
  eexists. split; [reflexivity |].
  rewrite after_Close_heap, after_Close_calls by assumption.
  cbn [heap calls]. split; [reflexivity |].
  rewrite <- !app_assoc. reflexivity.
Qed.

(** An [int] read from an attribute holding 42. *)
Lemma Attribute_Read_transfers_in_place_witness :
  exists w',
    Attribute_Read RefStore 0 (mkIdentifier 7) (VPtr 1%nat) w_pointer =
      Returns None w' /\
    heap w' = [CPtr (TBasic BInt) (Some 1%nat); CScalar BInt forty_two] /\
    calls w' =
      [Call_H5Aget_type 7;
       Call_H5Aread 7 100 (AtAddr (AddrOf 1%nat)) (repeat x00 8);
       Call_H5Tclose 100].
Proof.
  apply (Attribute_Read_transfers_in_place RefStore 0 (mkIdentifier 7) 1%nat
           (CScalar BInt (repeat x00 8)) w_pointer);
    try reflexivity.
  discriminate.
Defined.

(** X11: when the queried type reports size 0, the slice case of
    [Attribute.Read] panics on the integer division; the deferred Close
    still closes the type, and the destination is untouched and nothing is
    transferred. *)
Theorem Attribute_Read_slice_divides_by_size
        (E : Hdf5) (fuel : nat) (s : Attribute) (l : loc)
        (elem : GoType) (hdr : SliceHeader) (w : World E) :
  nth_error (heap w) l = Some (CSlice elem hdr) ->
  disk_GoType s w = elem ->
  disk_elem_size s w = 0 ->
  id (queried_type s w) <> 0 ->
  exists w',
    Attribute_Read E fuel s (VPtr l) w = Panics DivideByZero w' /\
    heap w' = heap w /\
    calls w' = calls w ++ [Call_H5Aget_type (id s);
                           Call_H5Tclose (id (queried_type s w))].
Proof.
  intros Hl Ht Hsz Hid.
  destruct (Attribute_Read_VPtr E fuel s l _ w Hl) as [recur ->].
  eexists. split.
  - apply defer_Close_Panics.
    cbn [Attribute_Read_switch]. unfold bind at 1, GoType_of.
    change (Datatype_GoType E (queried_type s w) (lib (after_GetType s w)))
      with (disk_GoType s w).
    rewrite Ht.
    destruct (GoType_eq_dec elem elem) as [_ | Hne]; [| contradiction].
    unfold bind at 1, C_H5Aget_storage_size.
    unfold bind at 1, Size_of.
    unfold bind at 1, int_div.
    change (to_int (Datatype_Size E (queried_type s w) (lib (after_GetType s w))))
      with (disk_elem_size s w).
    rewrite Hsz. reflexivity.
  - rewrite after_Close_heap, after_Close_calls by assumption.
    unfold after_GetType. cbn [heap calls]. split; [reflexivity |].
    rewrite <- app_assoc. reflexivity.
Qed.

(** A slice of empty structs. *)
Lemma Attribute_Read_slice_divides_by_size_witness :
  exists w',
    Attribute_Read RefStore 0 (mkIdentifier 7) (VPtr 0%nat) w_struct_slice =
      Panics DivideByZero w' /\
    heap w' = heap w_struct_slice /\
    calls w' = [Call_H5Aget_type 7; Call_H5Tclose 100].
Proof.
  apply (Attribute_Read_slice_divides_by_size RefStore 0 (mkIdentifier 7)
           0%nat (TBasic BStruct) (mkSliceHeader Null 0 0) w_struct_slice);
    try reflexivity.
  discriminate.
Defined.

Section ReadSwitch.

Variable E : Hdf5.

(** The switch of [Attribute.Read], on a variable that is not a pointer,
    ends by return or by panic, and the only calls it can add to the log
    are raw reads. *)
Lemma Attribute_Read_switch_calls (recur : Value -> M E (option error))
      (s : Attribute) (typ : Datatype) (l : loc) (c : Cell) (w : World E) :
  pointer_cell c = false ->
  exists w' cs,
    final_world (Attribute_Read_switch E recur s typ l c w) = Some w' /\
    calls w' = calls w ++ cs /\
    filter is_Tclose cs = [].
Proof.
  intros Hp.
  destruct c as [b raw | str | elem n raw | elem hdr | elem p];
    try discriminate Hp; cbn [Attribute_Read_switch];
    unfold read_string, resize, int_div, SetLen, MakeSlice, Slice0,
           bind, GoType_of, C_H5Aget_storage_size, Size_of, id_of, assign,
           C_H5Aread, C_H5Aread_local, log, ret, panic;
    repeat match goal with
           | |- context [if ?b then _ else _] => destruct b
           | |- context [let '(_, _) := ?x in _] => destruct x as [[? ?] ?]
           | |- context [match h5err E ?x with _ => _ end] =>
               destruct (h5err E x)
           end;
    cbn [final_world heap lib calls fst snd];
    do 2 eexists;
    (split; [reflexivity |]);
    (split; [first [exact (eq_sym (app_nil_r _)) | reflexivity] | reflexivity]).
Qed.

End ReadSwitch.

(** X12: whatever the variable behind the pointer is, as long as it is not
    itself a pointer, and whether [Attribute.Read] returns or panics, the
    type it queried is closed exactly once, by the last library call it
    makes. *)
Theorem Attribute_Read_always_closes_type
        (E : Hdf5) (fuel : nat) (s : Attribute) (l : loc) (c : Cell)
        (w : World E) :
  nth_error (heap w) l = Some c ->
  pointer_cell c = false ->
  id (queried_type s w) <> 0 ->
  exists w' cs,
    final_world (Attribute_Read E fuel s (VPtr l) w) = Some w' /\
    calls w' =
      calls w ++ [Call_H5Aget_type (id s)] ++ cs ++
      [Call_H5Tclose (id (queried_type s w))] /\
    filter is_Tclose cs = [].
Proof.
  intros Hl Hp Hid.
  destruct (Attribute_Read_closes_type E fuel s l c w Hl) as [recur Hrd].
  destruct (Attribute_Read_switch_calls E recur s (queried_type s w) l c
              (after_GetType s w) Hp) as (w0 & cs & Hf & Hc & Hcs).
  destruct (Attribute_Read_switch E recur s (queried_type s w) l c
              (after_GetType s w)) as [r w1 | p w1 |];
    try discriminate Hf; injection Hf as ->; rewrite Hrd;
    exists (after_Close (queried_type s w) w0), cs;
    (split; [reflexivity |]);
    rewrite after_Close_calls by assumption; rewrite Hc;
    unfold after_GetType; cbn [calls];
    (split; [rewrite <- !app_assoc; reflexivity | assumption]).
Qed.

(** The slice of empty structs again: the call panics, the type with
    handle 100 is closed. *)
Lemma Attribute_Read_always_closes_type_witness :
  exists w' cs,
    final_world (Attribute_Read RefStore 0 (mkIdentifier 7) (VPtr 0%nat)
                                w_struct_slice) = Some w' /\
    calls w' = [Call_H5Aget_type 7] ++ cs ++ [Call_H5Tclose 100] /\
    filter is_Tclose cs = [].
Proof.
  apply (Attribute_Read_always_closes_type RefStore 0 (mkIdentifier 7) 0%nat
           (CSlice (TBasic BStruct) (mkSliceHeader Null 0 0)) w_struct_slice);
    try reflexivity.
  discriminate.
Defined.

(** ** More on Attribute.Write *)

(** X13: when no type can be derived for the source, [Attribute.Write]
    returns the derivation error wrapped as a datatype error; Go memory is
    untouched and the library is not called. *)
Theorem Attribute_Write_wraps_derivation_error
        (E : Hdf5) (fuel : nat) (s : Attribute) (l : loc) (c : Cell)
        (w : World E) (dt : option Datatype) (e : error) (st : LibState E) :
  nth_error (heap w) l = Some c ->
  pointer_cell c = false ->
  NewDataTypeFromType E (cell_type c) (lib w) = (dt, Some e, st) ->
  exists w',
    Attribute_Write E fuel s (VPtr l) w = Returns (Some (ErrDatatype e)) w' /\
    heap w' = heap w /\
    calls w' = calls w.
Proof.
  intros Hl Hp Hd.
  exists (mkWorld (heap w) st (calls w)).
  split; [| split; reflexivity].
  destruct c; try discriminate Hp;
    destruct fuel; cbn [Attribute_Write];
    unfold bind at 1, deref; rewrite Hl;
    cbn [Attribute_Write_switch]; unfold write_tail, bind at 1,
      do_NewDataTypeFromType; rewrite Hd; reflexivity.
Qed.

(** A [complex128] source. *)
Lemma Attribute_Write_wraps_derivation_error_witness :
  exists w',
    Attribute_Write RefStore 0 (mkIdentifier 7) (VPtr 0%nat) w_underivable =
      Returns (Some (ErrDatatype (ErrUnsupported (TBasic BComplex128)))) w' /\
    heap w' = heap w_underivable /\
    calls w' = calls w_underivable.
Proof.
  apply (Attribute_Write_wraps_derivation_error RefStore 0 (mkIdentifier 7)
           0%nat (CScalar BComplex128 (repeat x00 16)) w_underivable None
           (ErrUnsupported (TBasic BComplex128)) (lib w_underivable));
    reflexivity.
Defined.



(** ** The variant of Attribute.Read that derives its type *)

Section DerivedRead.

Variable E : Hdf5.

Lemma attr_read_tail_typed (s : Attribute) (dt : Datatype)
      (err : option error) (addr : uintptr) (w : World E) :
  attr_read_tail E s (Some dt) err addr w =
  match err with
  | Some e => Returns (Some e) (after_Close dt w)
  | None =>
      let buf := load (heap w) addr in
      let r := H5Aread E (id s) (id dt) buf (lib w) in
      Returns (h5err E (fst (fst r)))
              (after_Close dt
                 (mkWorld (store (heap w) addr (snd (fst r))) (snd r)
                          (calls w ++
                           [Call_H5Aread (id s) (id dt) (AtAddr addr) buf])))
  end.
Proof.
  unfold attr_read_tail. destruct err as [e |].
  - apply defer_Close_Returns. reflexivity.
  - cbv zeta. apply defer_Close_Returns.
    unfold bind, id_of, ret, C_H5Aread, log.
    destruct (H5Aread E _ _ _ _) as [[rc out] st]. reflexivity.
Qed.

End DerivedRead.

(** X15: the deriving variant of [Attribute.Read] never asks the attribute
    for its type: for a scalar or a non-empty array it derives a type from
    the destination and, unless the derivation reported an error, makes
    the raw read with it, whatever the attribute holds; the derived type
    is closed on both paths. *)
Theorem Attribute_Read_derived_does_not_validate
        (E : Hdf5) (fuel : nat) (s : Attribute) (l : loc) (c : Cell)
        (w : World E) (dt : Datatype) (err : option error) (st : LibState E) :
  nth_error (heap w) l = Some c ->
  flat_cell c = true ->
  empty_array c = false ->
  NewDataTypeFromType E (elem_type c) (lib w) = (Some dt, err, st) ->
  id dt <> 0 ->
  exists w',
    match err with
    | Some e =>
        Attribute_Read_derived E fuel s (VPtr l) w = Returns (Some e) w' /\
        heap w' = heap w /\
        calls w' = calls w ++ [Call_H5Tclose (id dt)]
    | None =>
        Attribute_Read_derived E fuel s (VPtr l) w =
          Returns (h5err E (fst (fst (H5Aread E (id s) (id dt)
                                              (load (heap w) (AddrOf l)) st)))) w' /\
        heap w' =
          store (heap w) (AddrOf l)
                (snd (fst (H5Aread E (id s) (id dt)
                                   (load (heap w) (AddrOf l)) st))) /\
        calls w' =
          calls w ++
          [Call_H5Aread (id s) (id dt) (AtAddr (AddrOf l))
                        (load (heap w) (AddrOf l));
           Call_H5Tclose (id dt)]
    end.
Proof.
  intros Hl Hf Hn Hd Hid.
  destruct (Attribute_Read_derived_VPtr E fuel s l c w Hl) as [recur ->].
  assert (Hsw : Attribute_Read_derived_switch E recur s l c w =
                attr_read_tail E s (Some dt) err (AddrOf l)
                               (mkWorld (heap w) st (calls w))).
  { destruct c; try discriminate Hf;
      cbn [Attribute_Read_derived_switch elem_type empty_array] in *;
      try rewrite Hn;
      unfold bind at 1, do_NewDataTypeFromType; rewrite Hd; reflexivity. }
  rewrite Hsw, attr_read_tail_typed.
  destruct err as [e |]; cbv zeta; eexists;
    (split; [reflexivity |]);
    rewrite after_Close_heap, after_Close_calls by assumption;
    cbn [heap calls lib]; (split; [reflexivity |]).
  - reflexivity.
  - rewrite <- app_assoc. reflexivity.
Qed.

(** An [int32] destination and an attribute of [float64]: the read is
    made. *)
Lemma Attribute_Read_derived_does_not_validate_witness :
  exists w',
    Attribute_Read_derived RefStore 0 (mkIdentifier 7) (VPtr 0%nat)
                           w_int32_float = Returns None w' /\
    heap w' = [CScalar BInt32 [x01; x01; x01; x01]] /\
    calls w' =
      [Call_H5Aread 7 100 (AtAddr (AddrOf 0%nat)) [x00; x00; x00; x00];
       Call_H5Tclose 100].
Proof.
  apply (Attribute_Read_derived_does_not_validate RefStore 0 (mkIdentifier 7)
           0%nat (CScalar BInt32 [x00; x00; x00; x00]) w_int32_float
           (mkIdentifier 100) None
           (snd (new_type (TBasic BInt32) (lib w_int32_float))));
    try reflexivity.
  discriminate.
Defined.



(** X17: a text whose buffer lies in Go memory cannot be read from an
    attribute.  The buffer of the string case is a new string when the
    destination is shorter than the text stored (so for every zero-valued
    destination and a text of two bytes or more), and shares the bytes of
    the destination otherwise; when its bytes lie in Go memory the pointer
    check of cgo refuses the raw read and both variants of
    [Attribute.Read] panic.  The destination is unchanged and nothing is
    transferred.  [Read] of h5a.go has queried the type of the attribute
    and closes it by its deferred call; the deriving variant has derived a
    type and leaves it open. *)
Theorem Attribute_Read_text_refused
        (E : Hdf5) (fuel : nat) (s : Attribute) (l : loc)
        (o : Origin) (str : list byte) (w : World E) :
  nth_error (heap w) l = Some (CString o str) ->
  (kind_of (disk_GoType s w) = reflect.String ->
   0 <= storage_size s w ->
   string_buffer_origin o str (storage_size s w) = InGoMemory ->
   Attribute_Read E fuel s (VPtr l) w =
   Panics CgoPointer (after_Close (queried_type s w) (after_GetType s w))) /\
  (forall dt st,
      NewDataTypeFromType E TString (lib w) = (Some dt, None, st) ->
      0 <= to_int (H5Aget_storage_size E (id s) st) ->
      string_buffer_origin o str (to_int (H5Aget_storage_size E (id s) st))
        = InGoMemory ->
      Attribute_Read_derived E fuel s (VPtr l) w =
      Panics CgoPointer (mkWorld (heap w) st (calls w))).
Proof.
  intros Hl. split.
  - intros Hk Hln Ho.
    destruct (Attribute_Read_VPtr E fuel s l _ w Hl) as [recur ->].
    apply defer_Close_Panics.
    cbn [Attribute_Read_switch]. unfold bind at 1, GoType_of.
    change (Datatype_GoType E (queried_type s w) (lib (after_GetType s w)))
      with (disk_GoType s w).
    destruct (Kind_eq_dec (kind_of (disk_GoType s w)) reflect.String)
      as [_ | Hne]; [| contradiction].
    exact (read_string_refused E s (queried_type s w) l o str
                               (after_GetType s w) Hln Ho).
  - intros dt st Hd Hln Ho.
    destruct (Attribute_Read_derived_VPtr E fuel s l _ w Hl) as [recur ->].
    cbn [Attribute_Read_derived_switch].
    unfold bind at 1, do_NewDataTypeFromType. rewrite Hd. cbn [fst snd].
    exact (read_string_refused E s dt l o str
                               (mkWorld (heap w) st (calls w)) Hln Ho).
Qed.

(** "hello" in the attribute and a zero-valued destination: both variants
    panic; the first has closed the type it queried, handle 100, the
    second has made no call. *)
Lemma Attribute_Read_text_refused_witness :
  (exists w',
      Attribute_Read RefStore 0 (mkIdentifier 7) (VPtr 0%nat) w_empty_text =
        Panics CgoPointer w' /\
      heap w' = heap w_empty_text /\
      calls w' = [Call_H5Aget_type 7; Call_H5Tclose 100]) /\
  (exists w',
      Attribute_Read_derived RefStore 0 (mkIdentifier 7) (VPtr 0%nat)
                             w_empty_text = Panics CgoPointer w' /\
      heap w' = heap w_empty_text /\
      calls w' = []).
Proof.
  destruct (Attribute_Read_text_refused RefStore 0 (mkIdentifier 7) 0%nat
              Outside [] w_empty_text eq_refl) as [Ha Hd].
  split.
  - eexists. split; [apply Ha |].
    + reflexivity.
    + vm_compute. discriminate.
    + reflexivity.
    + split; reflexivity.
  - eexists. split.
    + apply (Hd (mkIdentifier 100) (snd (new_type TString (lib w_empty_text)))).
      * reflexivity.
      * vm_compute. discriminate.
      * reflexivity.
    + split; reflexivity.
Defined.

(** ** Where the elements of a slice arrive *)

Section FreshStorage.

Variable E : Hdf5.

Lemma resize_fresh (l : loc) (elem : GoType) (hdr : SliceHeader) (ln : Z)
      (w : World E) :
  0 <= ln -> Cap hdr < ln ->
  resize E l elem hdr ln w =
  Returns (mkSliceHeader (AddrOf (length (heap w))) ln ln)
          (mkWorld
             (heap_set (heap w ++ [CArray elem (Z.to_nat ln) (zeroed E elem ln)])
                       l (CSlice elem (mkSliceHeader (AddrOf (length (heap w)))
                                                     ln ln)))
             (lib w) (calls w)).
Proof.
  intros Hln Hgt. unfold resize, bind.
  destruct (Z.leb_spec ln (Cap hdr)) as [Hle | _]; [lia |].
  unfold MakeSlice. destruct (Z.ltb_spec ln 0) as [Hneg | _]; [lia |].
  reflexivity.
Qed.

End FreshStorage.

(** X18: when the capacity of the destination slice is smaller than the
    element count, [Attribute.Read] transfers into new storage, zeroed and
    as large as the count times the size of an element: the delivered
    elements are found there afterwards, and no other variable than the
    slice itself has changed; the old storage in particular is not
    written. *)
Theorem Attribute_Read_fills_fresh_storage
        (E : Hdf5) (fuel : nat) (s : Attribute) (l : loc)
        (elem : GoType) (hdr : SliceHeader) (w : World E) :
  nth_error (heap w) l = Some (CSlice elem hdr) ->
  disk_GoType s w = elem ->
  disk_elem_size s w <> 0 ->
  Cap hdr < on_disk_count s w ->
  0 <= on_disk_count s w ->
  exists r w',
    Attribute_Read E fuel s (VPtr l) w = Returns r w' /\
    nth_error (heap w') (length (heap w)) =
      Some (CArray elem (Z.to_nat (on_disk_count s w))
              (overwrite (zeroed E elem (on_disk_count s w))
                 (snd (fst (H5Aread E (id s) (id (queried_type s w))
                                    (zeroed E elem (on_disk_count s w))
                                    (lib (after_GetType s w))))))) /\
    forall l2, l2 <> l -> (l2 < length (heap w))%nat ->
               nth_error (heap w') l2 = nth_error (heap w) l2.
Proof.
  intros Hl Ht Hsz Hgt Hln.
  assert (Hlt : (l < length (heap w))%nat)
    by (apply nth_error_Some; congruence).
  destruct (Attribute_Read_VPtr E fuel s l _ w Hl) as [recur ->].
  set (ln := on_disk_count s w) in *.
  set (new := length (heap w)).
  set (h2 := heap_set (heap w ++ [CArray elem (Z.to_nat ln) (zeroed E elem ln)])
                      l (CSlice elem (mkSliceHeader (AddrOf new) ln ln))).
  assert (Hnew : nth_error h2 new =
                 Some (CArray elem (Z.to_nat ln) (zeroed E elem ln))).
  { unfold h2. rewrite heap_set_other by (unfold new; lia).
    unfold new. rewrite nth_error_app2 by lia.
    rewrite Nat.sub_diag. reflexivity. }
  assert (Hnewlt : (new < length h2)%nat)
    by (apply nth_error_Some; congruence).
  destruct (H5Aread E (id s) (id (queried_type s w)) (zeroed E elem ln)
                    (lib (after_GetType s w))) as [[rc out] st] eqn:Hread.
  exists (h5err E rc),
         (after_Close (queried_type s w)
            (mkWorld (store h2 (AddrOf new) out) st
               ((calls w ++ [Call_H5Aget_type (id s)]) ++
                [Call_H5Aread (id s) (id (queried_type s w))
                   (AtAddr (AddrOf new)) (load h2 (AddrOf new))]))).
  split.
  - apply defer_Close_Returns.
    cbn [Attribute_Read_switch]. unfold bind at 1, GoType_of.
    change (Datatype_GoType E (queried_type s w) (lib (after_GetType s w)))
      with (disk_GoType s w).
    rewrite Ht.
    destruct (GoType_eq_dec elem elem) as [_ | Hne]; [| contradiction].
    unfold bind at 1, C_H5Aget_storage_size.
    unfold bind at 1, Size_of.
    unfold bind at 1, int_div.
    change (to_int (Datatype_Size E (queried_type s w) (lib (after_GetType s w))))
      with (disk_elem_size s w).
    destruct (Z.eqb_spec (disk_elem_size s w) 0) as [H0 | _]; [contradiction |].
    unfold ret at 1. unfold bind at 1.
    change (to_int (Z.quot (to_int (H5Aget_storage_size E (id s)
                                      (lib (after_GetType s w))))
                           (disk_elem_size s w)))
      with ln.
    rewrite (resize_fresh E l elem hdr ln (after_GetType s w) Hln Hgt).
    unfold bind, C_H5Aread, log, ret. cbn [Data heap lib calls after_GetType].
    fold new. fold h2.
    unfold load. rewrite Hnew.
    change (snd (H5Aget_type E (id s) (lib w))) with (lib (after_GetType s w)).
    rewrite Hread. reflexivity.
  - rewrite after_Close_heap. cbn [heap fst snd].
    unfold store. rewrite Hnew. split.
    + apply heap_set_same. assumption.
    + intros l2 Hne Hl2.
      rewrite heap_set_other by (unfold new; lia).
      unfold h2. rewrite heap_set_other by congruence.
      apply nth_error_app1. assumption.
Qed.

(** Five [int64] read into a slice of capacity 2: they arrive in the new
    variable 2, and the old storage, variable 1, keeps its zeros. *)
Lemma Attribute_Read_fills_fresh_storage_witness :
  exists r w',
    Attribute_Read RefStore 0 (mkIdentifier 7) (VPtr 0%nat) w_short_slice =
      Returns r w' /\
    nth_error (heap w') 2%nat =
      Some (CArray (TBasic BInt64) 5 (repeat x01 40)) /\
    forall l2, l2 <> 0%nat -> (l2 < 2)%nat ->
               nth_error (heap w') l2 = nth_error (heap w_short_slice) l2.
Proof.
  apply (Attribute_Read_fills_fresh_storage RefStore 0 (mkIdentifier 7) 0%nat
           (TBasic BInt64) short_slice w_short_slice).
  - reflexivity.
  - reflexivity.
  - vm_compute. discriminate.
  - reflexivity.
  - vm_compute. discriminate.
Defined.

(** ** Reading an attribute by name *)

Lemma openAttribute_spec (E : Hdf5) (O : AttrOpen E) (i : Identifier)
      (name : String.string) (w : World E) :
  openAttribute O (id i) name w =
  Returns (match checkID O (opened_handle O i name w) with
           | Some err => (None, Some err)
           | None => (Some (newAttribute (opened_handle O i name w)), None)
           end)
          (after_open O i name w).
Proof.
  unfold openAttribute, bind, C_H5Aopen, opened_handle, after_open.
  destruct (H5Aopen O (id i) name (id (P_DEFAULT O)) (lib w)) as [hid st].
  cbn [fst snd]. destruct (checkID O hid); reflexivity.
Qed.

(** X19: when the attribute cannot be opened, [readAttr] returns the error
    of the opening, wrapped, whatever [data] is: the destination is not
    looked at (an invalid one is not reported), Go memory is unchanged,
    and no type is queried, nothing is read and nothing is closed. *)
Theorem readAttr_reports_opening_first
        (E : Hdf5) (O : AttrOpen E) (fuel : nat) (i : Identifier)
        (name : String.string) (data : Value) (w : World E) (e : error) :
  checkID O (opened_handle O i name w) = Some e ->
  exists w',
    readAttr O fuel i name data w = Returns (Some (ErrOpening e)) w' /\
    heap w' = heap w /\ calls w' = calls w.
Proof.
  intros He. exists (after_open O i name w). split.
  - unfold readAttr, bind. rewrite openAttribute_spec, He. reflexivity.
  - split; reflexivity.
Qed.

(** No attribute "unit" in the store, and no variable behind the pointer. *)
Lemma readAttr_reports_opening_first_witness :
  exists w',
    readAttr RefOpen 0 (mkIdentifier 3) unit_ (VPtr 5%nat) w_int =
      Returns (Some (ErrOpening (ErrH5 (-1)))) w' /\
    heap w' = heap w_int /\ calls w' = calls w_int.
Proof.
  apply (readAttr_reports_opening_first RefStore RefOpen 0 (mkIdentifier 3)
           unit_ (VPtr 5%nat) w_int (ErrH5 (-1))).
  reflexivity.
Defined.

(** X20: when the attribute is opened, [readAttr] is [Attribute.Read] on the
    new handle followed by the close of that handle, however [Read] ends:
    by an error, by success or by a panic.  The caller sees what [Read]
    returned or raised; what [Close] returns is dropped. *)
Theorem readAttr_closes_what_it_opened
        (E : Hdf5) (O : AttrOpen E) (fuel : nat) (i : Identifier)
        (name : String.string) (data : Value) (w w1 : World E) :
  checkID O (opened_handle O i name w) = None ->
  opened_handle O i name w <> 0 ->
  final_world (Attribute_Read E fuel (newAttribute (opened_handle O i name w))
                              data (after_open O i name w)) = Some w1 ->
  exists w',
    final_world (readAttr O fuel i name data w) = Some w' /\
    result_of (readAttr O fuel i name data w) =
      passed_on (result_of (Attribute_Read E fuel
                              (newAttribute (opened_handle O i name w))
                              data (after_open O i name w))) /\
    heap w' = heap w1 /\
    lib w' = snd (H5Aclose E (opened_handle O i name w) (lib w1)) /\
    calls w' = calls w1 ++ [Call_H5Aclose (opened_handle O i name w)].
Proof.
  intros Hc Hid Hw1.
  set (hid := opened_handle O i name w) in *.
  exists (mkWorld (heap w1) (snd (H5Aclose E hid (lib w1)))
                  (calls w1 ++ [Call_H5Aclose hid])).
  assert (Hclose : Attribute_Close E (newAttribute hid) w1 =
                   Returns (h5err E (fst (H5Aclose E hid (lib w1))),
                            mkIdentifier 0)
                     (mkWorld (heap w1) (snd (H5Aclose E hid (lib w1)))
                              (calls w1 ++ [Call_H5Aclose hid]))).
  { unfold Attribute_Close. cbn [id newAttribute].
    destruct (Z.eqb_spec hid 0) as [H0 | _]; [contradiction |].
    unfold bind, C_H5Aclose, log, ret.
    destruct (H5Aclose E hid (lib w1)) as [rc st]. reflexivity. }
  assert (Hrun : readAttr O fuel i name data w =
                 defer (Attribute_Close E (newAttribute hid))
                       (bind (Attribute_Read E fuel (newAttribute hid) data)
                             (fun e => ret (option_map ErrOfRead e)))
                       (after_open O i name w)).
  { unfold readAttr. unfold bind at 1. rewrite openAttribute_spec.
    fold hid. rewrite Hc. reflexivity. }
  rewrite Hrun. unfold defer, bind.
  destruct (Attribute_Read E fuel (newAttribute hid) data
                           (after_open O i name w)) as [r w2 | p w2 |];
    cbn [final_world] in Hw1; try discriminate;
    injection Hw1 as ->; unfold ret; rewrite Hclose;
    cbn [final_world result_of passed_on heap lib calls];
    repeat split; reflexivity.
Qed.

(** The attribute "units" is opened with the handle 7, read into an
    [int] and closed. *)
Lemma readAttr_closes_what_it_opened_witness :
  exists w',
    final_world (readAttr RefOpen 0 (mkIdentifier 3) units (VPtr 0%nat)
                          w_int) = Some w' /\
    result_of (readAttr RefOpen 0 (mkIdentifier 3) units (VPtr 0%nat)
                        w_int) =
      passed_on (result_of (Attribute_Read RefStore 0 (newAttribute 7)
                              (VPtr 0%nat) w_int)) /\
    heap w' = heap w_int_read /\
    lib w' = snd (H5Aclose RefStore 7 (lib w_int_read)) /\
    calls w' = calls w_int_read ++ [Call_H5Aclose 7].
Proof.
  apply (readAttr_closes_what_it_opened RefStore RefOpen 0 (mkIdentifier 3)
           units (VPtr 0%nat) w_int w_int_read).
  - reflexivity.
  - vm_compute. discriminate.
  - reflexivity.
Defined.
